(** * Adaptive decision and planning engine of the learning-resolution coach

    A shallow embedding of the core-agent services
    ([scoring_service.py], [decision_engine.py], [plan_service.py],
    [checkin_service.py], [intake_service.py], [premortem_service.py],
    the [complete_task] route) over an explicit database state, together
    with the properties the specification states about them and further
    properties of the same code.

    Conventions.
    - A table is the list of its rows in insertion order; [Query.first()]
      is the first row of the list that passes the filter, and an attribute
      assignment on the object it returned rewrites that position.  The
      rows [Query.all()] returns without an [order_by] come in an order the
      database engine chooses, a [RowOrder].
    - [date.today()] and [datetime.utcnow()] are read from the environment,
      so they are arguments: a [date] is its proleptic Gregorian ordinal
      ([date.toordinal()]), a [datetime] an integer time stamp.
    - The content generator (LLM) is an external collaborator: the outcome
      of a call is an argument, [None] standing for a raised exception.
    - A Python [float] is an IEEE 754 binary64 value, [spec_float] of the
      standard library with [prec = 53] and [emax = 1024]. *)

From Stdlib Require Import ZArith List Bool Lia.
From Stdlib Require Import Floats.SpecFloat.
From Stdlib Require Import DecimalString.
From stdpp Require Import base list sorting strings.

Local Open Scope Z_scope.

(** ** Binary64 arithmetic as Python exposes it *)

Module Float64.

Definition prec : Z := 53.
Definition emax : Z := 1024.

Abbreviation float := spec_float.

Definition add : float -> float -> float := SFadd prec emax.
Definition div : float -> float -> float := SFdiv prec emax.
Definition ltb : float -> float -> bool := SFltb.
Definition leb : float -> float -> bool := SFleb.
Definition eqb : float -> float -> bool := SFeqb.

(** [float(z)] for an integer that is exactly representable, and its
    nearest-even rounding otherwise. *)
Definition of_Z (z : Z) : float := binary_normalize prec emax z 0 false.

(** Integer quotient [a / b] rounded to the nearest integer, ties to the
    even one ([0 <= a], [0 < b]). *)
Definition div_half_even (a b : Z) : Z :=
  let q := a / b in
  let r := a mod b in
  match 2 * r ?= b with
  | Lt => q
  | Gt => q + 1
  | Eq => if Z.even q then q else q + 1
  end.

(** [pow2_le d n l] decides [d * 2^l <= n] for any sign of [l]. *)
Definition pow2_le (d n l : Z) : bool :=
  if 0 <=? l then d * 2 ^ l <=? n else d <=? n * 2 ^ (- l).

(** [floor (log2 (n / d))] for [0 < n], [0 < d]. *)
Definition ratio_log2 (n d : Z) : Z :=
  let l := Z.log2 n - Z.log2 d in
  if pow2_le d n l then l else l - 1.

(** Exponent of the unit in the last place of the binary64 numbers of
    the binade of [n / d]; [-1074] throughout the subnormal range. *)
Definition ratio_ulp_exp (n d : Z) : Z := Z.max (ratio_log2 n d - 52) (-1074).

(** [n / d] as a multiple of its unit in the last place, rounded to
    nearest with ties to even. *)
Definition ratio_mantissa (n d : Z) : Z :=
  let E := ratio_ulp_exp n d in
  if 0 <=? E then div_half_even n (d * 2 ^ E)
  else div_half_even (n * 2 ^ (- E)) d.

(** The binary64 number [m * 2^E] in canonical form, for a mantissa that
    rounding may have carried to [2^53]. *)
Definition pack (m E : Z) : float :=
  match m with
  | Zpos p =>
      let '(p', E') := if m =? 2 ^ 53 then (Z.to_pos (2 ^ 52), E + 1) else (p, E) in
      if E' <=? emax - prec then S754_finite false p' E' else S754_infinity false
  | _ => S754_zero false
  end.

(** The binary64 number nearest to the rational [n / d] ([0 <= n],
    [0 < d]), ties to even: what Python computes for the true division
    [n / d] of two [int]s, and for a decimal literal.  Python raises
    [OverflowError] where this returns the infinity; no quotient taken
    below exceeds 1. *)
Definition round_ratio (n d : Z) : float :=
  if n <=? 0 then S754_zero false
  else pack (ratio_mantissa n d) (ratio_ulp_exp n d).

(** [a / b] for two Python [int]s, [0 <= a] and [0 < b]. *)
Definition int_truediv (a : N) (b : positive) : float :=
  round_ratio (Z.of_N a) (Zpos b).

(** [round(x, ndigits)] for a float and [0 <= ndigits]: the exact value
    of [x] is rounded half-even to a multiple of [10^-ndigits], and the
    binary64 number nearest to that decimal is returned. *)
Definition scaled_half_even (scale : Z) (m : positive) (e : Z) : Z :=
  if 0 <=? e then scale * Zpos m * 2 ^ e
  else div_half_even (scale * Zpos m) (2 ^ (- e)).

Definition round (x : float) (ndigits : nat) : float :=
  match x with
  | S754_finite s m e =>
      let scale := 10 ^ Z.of_nat ndigits in
      let r := round_ratio (scaled_half_even scale m e) scale in
      if s then SFopp r else r
  | _ => x
  end.

(** Python's [min(a, b)] keeps its first argument unless the second is
    strictly smaller. *)
Definition min (a b : float) : float := if ltb b a then b else a.

(** The value of a finite non-negative binary64 number in units of
    [2^-1074], the smallest positive one. *)
Definition ulps (x : float) : Z :=
  match x with
  | S754_finite false m e => Zpos m * 2 ^ (e + 1074)
  | _ => 0
  end.

(** A finite non-negative binary64 number whose exponent is in range. *)
Definition nonneg_finite (x : float) : Prop :=
  match x with
  | S754_zero false => True
  | S754_finite false _ e => -1074 <= e
  | _ => False
  end.

(** The number of hundredths [round(x, 2)] keeps of a non-negative [x]. *)
Definition hundredths (x : float) : Z :=
  match x with
  | S754_finite false m e => scaled_half_even 100 m e
  | _ => 0
  end.

(** [i / 100 <= j / 100] as binary64 numbers whenever [i <= j]. *)
Definition hundredths_le (i j : nat) : bool :=
  implb (Nat.leb i j)
        (leb (round_ratio (Z.of_nat i) 100) (round_ratio (Z.of_nat j) 100)).

(** Structural equality of two binary64 numbers. *)
Definition same (x y : float) : bool :=
  match x, y with
  | S754_zero s, S754_zero s' => Bool.eqb s s'
  | S754_infinity s, S754_infinity s' => Bool.eqb s s'
  | S754_nan, S754_nan => true
  | S754_finite s m e, S754_finite s' m' e' =>
      Bool.eqb s s' && Pos.eqb m m' && Z.eqb e e'
  | _, _ => false
  end.

(** [c / (t + 1)] on two [int]s is what IEEE division gives on the two
    integers converted to binary64. *)
Definition agrees_with_div (c t : nat) : bool :=
  same (round_ratio (Z.of_nat c) (Z.of_nat (S t)))
       (div (of_Z (Z.of_nat c)) (of_Z (Z.of_nat (S t)))).

(** Literals of the source, each the binary64 number nearest to the
    decimal. *)
Definition f0_0 : float := S754_zero false.
Definition f1_0 : float := S754_finite false 4503599627370496 (-52).
Definition f0_1 : float := S754_finite false 7205759403792794 (-56).
Definition f0_3 : float := S754_finite false 5404319552844595 (-54).
Definition f0_5 : float := S754_finite false 4503599627370496 (-53).
Definition f0_6 : float := S754_finite false 5404319552844595 (-53).
Definition f0_8 : float := S754_finite false 7205759403792794 (-53).

End Float64.

Import Float64.

(** ** Data model ([shared/db/models.py]) *)

Inductive TaskStatus := PENDING | IN_PROGRESS | COMPLETED | SKIPPED.
Inductive TaskType := READING | CODING | REVIEW | QUIZ.

#[global] Instance TaskStatus_eq_dec : EqDecision TaskStatus.
Proof. solve_decision. Defined.
#[global] Instance TaskType_eq_dec : EqDecision TaskType.
Proof. solve_decision. Defined.

Record Commitment := {
  commitment_id : Z;
  commitment_user_id : Z;
  goal : string;
  target_date : Z;
  weekly_hours : Z;
  commitment_is_active : bool;
  commitment_created_at : Z
}.

(** One entry of the ["tasks"] array of a generated plan; [None] is an
    absent key. *)
Record TaskData := {
  td_task : option string;
  td_timebox_min : option Z;
  td_type : option string;
  td_day : option Z
}.

(** The payload stored in [Plan.plan_json], restricted to the keys the
    services read. *)
Record PlanJson := {
  pj_week_focus : option string;
  pj_tasks : option (list TaskData)
}.

Record Plan := {
  plan_id : Z;
  plan_user_id : Z;
  week_start : Z;
  version : Z;
  plan_json : PlanJson;
  plan_is_active : bool
}.

Record DailyTask := {
  task_id : Z;
  task_plan_id : Z;
  task_date : Z;
  task : string;
  timebox_min : Z;
  task_type : TaskType;
  status : TaskStatus;
  started_at : option Z;
  completed_at : option Z
}.

Record Checkin := {
  checkin_id : Z;
  checkin_user_id : Z;
  checkin_date : Z;
  checkin_yesterday : option string;
  checkin_today : option string;
  checkin_blockers : option string;
  checkin_next_task : option string;
  checkin_fallback_task : option string;
  checkin_advice : option string
}.

Record Quiz := {
  quiz_id : Z;
  quiz_user_id : Z;
  score : option float;
  completed : bool;
  quiz_created_at : Z
}.

Record MemoryRule := {
  rule_id : Z;
  rule_user_id : Z;
  rule_type : string;
  rule_value : string;
  confidence : float;
  rule_is_active : bool
}.

Record Db := {
  commitments : list Commitment;
  plans : list Plan;
  daily_tasks : list DailyTask;
  checkins : list Checkin;
  quizzes : list Quiz;
  memory_rules : list MemoryRule
}.

Definition empty_db : Db :=
  {| commitments := []; plans := []; daily_tasks := []; checkins := [];
     quizzes := []; memory_rules := [] |}.

(** The key an auto-increment column gives the next inserted row. *)
Definition next_id (ids : list Z) : Z := 1 + foldr Z.max 0 ids.

(** [Query.first()]: the first row passing the filter, with its position. *)
Definition first {A} (P : A -> Prop) `{!forall x, Decision (P x)} (rows : list A)
  : option (nat * A) := list_find P rows.

(** ** Scoring ([scoring_service.py]) *)

Module ScoringService.

Definition active_plan_of (user_id : Z) (p : Plan) : Prop :=
  plan_user_id p = user_id /\ plan_is_active p = true.

Definition in_window (pid since today : Z) (t : DailyTask) : Prop :=
  task_plan_id t = pid /\ since <= task_date t /\ task_date t <= today.

Definition completed_in_window (pid since today : Z) (t : DailyTask) : Prop :=
  in_window pid since today t /\ status t = COMPLETED.

#[global] Instance active_plan_of_dec u p : Decision (active_plan_of u p).
Proof. unfold active_plan_of. apply _. Defined.
#[global] Instance in_window_dec pid s t x : Decision (in_window pid s t x).
Proof. unfold in_window. apply _. Defined.
#[global] Instance completed_in_window_dec pid s t x :
  Decision (completed_in_window pid s t x).
Proof. unfold completed_in_window. apply _. Defined.

(** The last three lines of [calculate_adherence], on the two counts. *)
Definition adherence_of_counts (completed_tasks total_tasks : nat) : float :=
  match N.of_nat total_tasks with
  | N0 => f1_0
  | Npos total => round (int_truediv (N.of_nat completed_tasks) total) 2
  end.

Definition calculate_adherence (db : Db) (today user_id days : Z) : float :=
  let since := today - days in
  match first (active_plan_of user_id) (plans db) with
  | None => f0_0
  | Some (_, plan) =>
      let total_tasks :=
        length (filter (in_window (plan_id plan) since today) (daily_tasks db)) in
      let completed_tasks :=
        length (filter (completed_in_window (plan_id plan) since today)
                       (daily_tasks db)) in
      adherence_of_counts completed_tasks total_tasks
  end.

(** A Python number: [sum] starts from the [int] 0 and [q.score or 0]
    yields the [int] 0 for a missing or zero score. *)
Inductive number := PyInt (z : Z) | PyFloat (f : float).

Definition to_float (x : number) : float :=
  match x with PyInt z => of_Z z | PyFloat f => f end.

Definition number_add (x y : number) : number :=
  match x, y with
  | PyInt a, PyInt b => PyInt (a + b)
  | _, _ => PyFloat (add (to_float x) (to_float y))
  end.

(** [x / y] for a non-negative [x] and a positive [int] [y]. *)
Definition number_truediv (x : number) (y : positive) : float :=
  match x with
  | PyInt a => int_truediv (Z.to_N a) y
  | PyFloat f => div f (of_Z (Zpos y))
  end.

(** Truth value of a float: zero of either sign is false. *)
Definition float_truthy (f : float) : bool :=
  match f with S754_zero _ => false | _ => true end.

(** [q.score or 0] *)
Definition score_or_0 (q : Quiz) : number :=
  match score q with
  | Some f => if float_truthy f then PyFloat f else PyInt 0
  | None => PyInt 0
  end.

Definition sum (xs : list number) : number := foldl number_add (PyInt 0) xs.

(** The filter of [calculate_knowledge].  Its third criterion is the
    Python expression [Quiz.score is not None]: an identity test on the
    column attribute, which is an object, so it is the constant [True]
    and the query receives no condition on the score. *)
Definition knowledge_filter (user_id : Z) (q : Quiz) : Prop :=
  quiz_user_id q = user_id /\ completed q = true /\ True.

#[global] Instance knowledge_filter_dec u q : Decision (knowledge_filter u q).
Proof. unfold knowledge_filter. apply _. Defined.

Definition newer_first (a b : Quiz) : Prop := quiz_created_at b <= quiz_created_at a.

#[global] Instance newer_first_dec a b : Decision (newer_first a b).
Proof. unfold newer_first. apply _. Defined.

Definition calculate_knowledge (db : Db) (user_id : Z) : float :=
  let quizzes :=
    take 5 (merge_sort newer_first (filter (knowledge_filter user_id) (quizzes db))) in
  match quizzes with
  | [] => f0_0
  | _ :: _ =>
      let avg_score :=
        number_truediv (sum (map score_or_0 quizzes)) (Pos.of_nat (length quizzes)) in
      round avg_score 2
  end.

(** The knowledge score in the words of the specification: the mean,
    rounded to two decimals, of the scores of the five most recently
    created completed quizzes that have a score; 0.0 when there is none. *)
Definition scored_filter (user_id : Z) (q : Quiz) : Prop :=
  quiz_user_id q = user_id /\ completed q = true /\ is_Some (score q).

#[global] Instance scored_filter_dec u q : Decision (scored_filter u q).
Proof. unfold scored_filter. apply _. Defined.

Definition calculate_knowledge_spec (db : Db) (user_id : Z) : float :=
  let quizzes :=
    take 5 (merge_sort newer_first (filter (scored_filter user_id) (quizzes db))) in
  match quizzes with
  | [] => f0_0
  | _ :: _ =>
      round (number_truediv (sum (map score_or_0 quizzes))
                            (Pos.of_nat (length quizzes))) 2
  end.

Definition recent_checkin (user_id since : Z) (c : Checkin) : Prop :=
  checkin_user_id c = user_id /\ since <= checkin_date c.

#[global] Instance recent_checkin_dec u s c : Decision (recent_checkin u s c).
Proof. unfold recent_checkin. apply _. Defined.

Definition recent_checkins (db : Db) (today user_id : Z) : nat :=
  length (filter (recent_checkin user_id (today - 3)) (checkins db)).

(** The status logic of [get_user_status] on the two values it reads. *)
Definition status_of (adherence : float) (recent : nat) : string :=
  if ltb adherence f0_3 || Nat.eqb recent 0 then "at_risk"
  else if ltb adherence f0_6 then "recovering"
  else "active".

Definition get_user_status (db : Db) (today user_id : Z) : string :=
  let adherence := calculate_adherence db today user_id 7 in
  status_of adherence (recent_checkins db today user_id).

End ScoringService.

(** ** Adaptation policy ([decision_engine.py]) *)

Module AdaptationPolicy.

Definition LOW_ADHERENCE_THRESHOLD : float := f0_3.
Definition MEDIUM_ADHERENCE_THRESHOLD : float := f0_6.
Definition LOW_RETENTION_THRESHOLD : float := f0_5.

Definition determine_adjustment (adherence knowledge retention : float) : string :=
  if ltb adherence LOW_ADHERENCE_THRESHOLD then "reduce_scope"
  else if ltb retention LOW_RETENTION_THRESHOLD then "repeat_concepts"
  else if ltb f0_8 knowledge && ltb f0_8 adherence then "increase_challenge"
  else "keep".

End AdaptationPolicy.

(** ** The decision contract ([shared/schemas/agent_decision.py])

    An [AgentDecision] is the record of the arguments its constructor is
    given; [validated] is the constructor call, with the field validation
    pydantic runs on them. *)

Record Signals := {
  adherence : float;
  knowledge : float;
  retention : float;
  signals_status : string
}.

Record Action := {
  plan_adjustment : string;
  risk_mitigation : list string
}.

Record NextTask := {
  nt_task : string;
  nt_timebox_min : Z;
  nt_type : string
}.

Record ResourceUsed := {
  resource_title : string;
  resource_url : string;
  resource_relevance : float
}.

Record AgentDecision := {
  reason : string;
  advice : option string;
  signals : Signals;
  action : Action;
  next_tasks : list NextTask;
  resources_used : list ResourceUsed;
  quality_score : float;
  quality_flags : list string
}.

(** The decision every service returns when the user has no active
    commitment. *)
Definition no_commitment_decision : AgentDecision :=
  {| reason := "No active commitment found. Please complete intake first.";
     advice := None;
     signals := {| adherence := f0_0; knowledge := f0_0; retention := f0_0;
                   signals_status := "at_risk" |};
     action := {| plan_adjustment := "keep"; risk_mitigation := [] |};
     next_tasks := [ {| nt_task := "Complete intake assessment";
                        nt_timebox_min := 10; nt_type := "review" |} ];
     resources_used := [];
     quality_score := f1_0;
     quality_flags := ["no_commitment"] |}.

(** What a service call hands back: its return value, or the name of the
    exception it let escape. *)
Inductive outcome (A : Type) :=
  | Returned (value : A)
  | Raised (exception : string).
Arguments Returned {A} value.
Arguments Raised {A} exception.

(** [Field(ge=0.0, le=1.0)] *)
Definition unit_interval (x : float) : bool := leb f0_0 x && leb x f1_0.

(** [Literal[...]] *)
Definition one_of (allowed : list string) (s : string) : bool :=
  existsb (String.eqb s) allowed.

Definition valid_signals (s : Signals) : bool :=
  unit_interval (adherence s) && unit_interval (knowledge s)
  && unit_interval (retention s)
  && one_of ["active"; "at_risk"; "recovering"] (signals_status s).

Definition valid_action (a : Action) : bool :=
  one_of ["reduce_scope"; "repeat_concepts"; "increase_challenge"; "keep"]
         (plan_adjustment a).

Definition valid_next_task (t : NextTask) : bool :=
  (10 <=? nt_timebox_min t) && (nt_timebox_min t <=? 120)
  && one_of ["reading"; "coding"; "review"; "quiz"] (nt_type t).

Definition valid_resource (r : ResourceUsed) : bool :=
  unit_interval (resource_relevance r).

Definition valid_decision (d : AgentDecision) : bool :=
  valid_signals (signals d) && valid_action (action d)
  && forallb valid_next_task (next_tasks d)
  && forallb valid_resource (resources_used d)
  && unit_interval (quality_score d).

(** [AgentDecision(...)]: the model, or pydantic's [ValidationError]. *)
Definition validated (d : AgentDecision) : outcome AgentDecision :=
  if valid_decision d then Returned d else Raised "ValidationError".

(** A citation as the retrieval worker sends it, a JSON object where a
    [ResourceUsed] is expected; [None] is an absent key. *)
Record Citation := {
  ct_title : option string;
  ct_url : option string;
  ct_relevance : option float
}.

(** The [ResourceUsed] pydantic makes of a citation: [title] and [url]
    are required, [relevance] defaults to 0.0. *)
Definition resource_of (c : Citation) : option ResourceUsed :=
  match ct_title c, ct_url c with
  | Some t, Some u =>
      Some {| resource_title := t; resource_url := u;
              resource_relevance := default f0_0 (ct_relevance c) |}
  | _, _ => None
  end.

(** The rows of a query without [order_by], as the database engine
    returns them: some rearrangement of the rows in table order. *)
Record RowOrder := {
  arrange : list DailyTask -> list DailyTask;
  arrange_permutation : forall rows, arrange rows ≡ₚ rows
}.

Definition table_order : RowOrder :=
  {| arrange := fun rows => rows; arrange_permutation := fun rows => reflexivity rows |}.

Definition reverse_order : RowOrder :=
  {| arrange := reverse; arrange_permutation := reverse_Permutation |}.

Definition active_commitment_of (user_id : Z) (c : Commitment) : Prop :=
  commitment_user_id c = user_id /\ commitment_is_active c = true.

#[global] Instance active_commitment_of_dec u c : Decision (active_commitment_of u c).
Proof. unfold active_commitment_of. apply _. Defined.

(** ** Python strings *)

(** Truth value of an optional string: [None] and the empty string are
    false. *)
Definition truthy (o : option string) : bool :=
  match o with
  | Some s => negb (String.eqb s "")
  | None => false
  end.

(** [a or b] on optional strings. *)
Definition str_or (a b : option string) : option string :=
  if truthy a then a else b.

(** [str.lower()], on the ASCII letters. *)
Definition ascii_lower (c : Ascii.ascii) : Ascii.ascii :=
  let n := Ascii.nat_of_ascii c in
  if (Nat.leb 65 n && Nat.leb n 90)%bool then Ascii.ascii_of_nat (n + 32) else c.

Fixpoint lower (s : string) : string :=
  match s with
  | EmptyString => EmptyString
  | String c t => String (ascii_lower c) (lower t)
  end.

(** [needle in hay] *)
Fixpoint contains (needle hay : string) : bool :=
  (String.prefix needle hay
   || match hay with
      | EmptyString => false
      | String _ t => contains needle t
      end)%bool.

(** [str(z)] for an [int]. *)
Definition str_of_Z (z : Z) : string := NilZero.string_of_int (Z.to_int z).

(** ** Weekly planning ([plan_service.py]) *)

Module PlanService.

(** [date.weekday()]: Monday is 0; ordinal 1 is a Monday. *)
Definition weekday (d : Z) : Z := (d + 6) mod 7.

Definition _get_week_start (d : Z) : Z := d - weekday d.

Definition active_plan_of_week (user_id ws : Z) (p : Plan) : Prop :=
  plan_user_id p = user_id /\ week_start p = ws /\ plan_is_active p = true.

#[global] Instance active_plan_of_week_dec u ws p : Decision (active_plan_of_week u ws p).
Proof. unfold active_plan_of_week. apply _. Defined.

Definition next_task_of (t : TaskData) : NextTask :=
  {| nt_task := default "" (td_task t);
     nt_timebox_min := default 45 (td_timebox_min t);
     nt_type := default "reading" (td_type t) |}.

(** The tasks come unvalidated from the stored payload, so the
    constructor raises when one of the first three has a timebox outside
    10..120 or a type that is none of the four. *)
Definition _plan_to_decision (plan : Plan) (commitment : Commitment)
  : outcome AgentDecision :=
  let plan_data := plan_json plan in
  let week_focus := default "Learning week" (pj_week_focus plan_data) in
  let tasks := default [] (pj_tasks plan_data) in
  validated
    {| reason := "Week " +:+ str_of_Z (version plan) +:+ ": " +:+ week_focus;
       advice := None;
       signals := {| adherence := f1_0; knowledge := f0_0; retention := f0_0;
                     signals_status := "active" |};
       action := {| plan_adjustment := "keep"; risk_mitigation := [] |};
       next_tasks := map next_task_of (take 3 tasks);
       resources_used := [];
       quality_score := f1_0;
       quality_flags := [] |}.

(** [TaskType(s)]: [None] where the constructor raises [ValueError]. *)
Definition TaskType_of_string (s : string) : option TaskType :=
  if String.eqb s "reading" then Some READING
  else if String.eqb s "coding" then Some CODING
  else if String.eqb s "review" then Some REVIEW
  else if String.eqb s "quiz" then Some QUIZ
  else None.

(** The row one iteration of [_create_daily_tasks] adds, before it has
    its key. *)
Definition daily_task_of (plan : Plan) (id : Z) (task_data : TaskData) : DailyTask :=
  let day := default 1 (td_day task_data) in
  let task_date := week_start plan + Z.max 0 (day - 1) in
  let task_type_str := default "reading" (td_type task_data) in
  let task_type := default READING (TaskType_of_string task_type_str) in
  {| task_id := id;
     task_plan_id := plan_id plan;
     task_date := task_date;
     task := default "" (td_task task_data);
     timebox_min := default 45 (td_timebox_min task_data);
     task_type := task_type;
     status := PENDING;
     started_at := None;
     completed_at := None |}.

Definition add_daily_task (plan : Plan) (rows : list DailyTask) (task_data : TaskData)
  : list DailyTask :=
  rows ++ [daily_task_of plan (next_id (map task_id rows)) task_data].

Definition _create_daily_tasks (db : Db) (plan : Plan) (tasks : list TaskData) : Db :=
  {| commitments := commitments db;
     plans := plans db;
     daily_tasks := foldl (add_daily_task plan) (daily_tasks db) tasks;
     checkins := checkins db;
     quizzes := quizzes db;
     memory_rules := memory_rules db |}.

Definition default_task (t : string) (timebox : Z) (ty : string) (day : Z) : TaskData :=
  {| td_task := Some t; td_timebox_min := Some timebox; td_type := Some ty;
     td_day := Some day |}.

Definition _default_plan (commitment : Commitment) : PlanJson :=
  {| pj_week_focus := Some ("Getting started with " +:+ goal commitment);
     pj_tasks := Some [ default_task "Review fundamentals" 45 "reading" 1;
                        default_task "Practice exercise 1" 30 "coding" 2;
                        default_task "Continue learning" 45 "reading" 3;
                        default_task "Practice exercise 2" 30 "coding" 4;
                        default_task "Weekly review" 20 "review" 5 ] |}.

Definition set_plan_inactive (p : Plan) : Plan :=
  {| plan_id := plan_id p; plan_user_id := plan_user_id p;
     week_start := week_start p; version := version p;
     plan_json := plan_json p; plan_is_active := false |}.

Definition with_plans (db : Db) (ps : list Plan) : Db :=
  {| commitments := commitments db;
     plans := ps;
     daily_tasks := daily_tasks db;
     checkins := checkins db;
     quizzes := quizzes db;
     memory_rules := memory_rules db |}.

(** [llm] is the outcome of the [structured_output] call: [None] when it
    raises, and the fallback plan is used.  The plan and its daily tasks
    are committed before the decision is built, so they are stored also
    when building it raises. *)
Definition generate_weekly_plan
    (db : Db) (today : Z) (llm : option PlanJson) (user_id : Z) (force_regenerate : bool)
  : outcome AgentDecision * Db :=
  match first (active_commitment_of user_id) (commitments db) with
  | None => (Returned no_commitment_decision, db)
  | Some (_, commitment) =>
      let ws := _get_week_start today in
      let existing_plan := first (active_plan_of_week user_id ws) (plans db) in
      match existing_plan, force_regenerate with
      | Some (_, plan), false => (_plan_to_decision plan commitment, db)
      | _, _ =>
          let llm_response := default (_default_plan commitment) llm in
          let '(old_plans, new_version) :=
            match existing_plan with
            | Some (i, plan) =>
                (<[i := set_plan_inactive plan]> (plans db), version plan + 1)
            | None => (plans db, 1)
            end in
          let plan :=
            {| plan_id := next_id (map plan_id old_plans);
               plan_user_id := user_id;
               week_start := ws;
               version := new_version;
               plan_json := llm_response;
               plan_is_active := true |} in
          let db1 := with_plans db (old_plans ++ [plan]) in
          let db2 := _create_daily_tasks db1 plan (default [] (pj_tasks llm_response)) in
          (_plan_to_decision plan commitment, db2)
      end
  end.

(** The plan a call creates when the week has no active plan yet. *)
Definition first_plan_of_week (db : Db) (today : Z) (llm : option PlanJson)
    (user_id : Z) (commitment : Commitment) : Plan :=
  {| plan_id := next_id (map plan_id (plans db));
     plan_user_id := user_id;
     week_start := _get_week_start today;
     version := 1;
     plan_json := default (_default_plan commitment) llm;
     plan_is_active := true |}.

(** What [_create_daily_tasks] makes of one entry of the task list. *)
Definition materialized (plan : Plan) (td : TaskData) (row : DailyTask) : Prop :=
  task_plan_id row = plan_id plan /\
  task_date row = week_start plan + Z.max 0 (default 1 (td_day td) - 1) /\
  task_type row
  = default READING (TaskType_of_string (default "reading"%string (td_type td))) /\
  status row = PENDING /\
  week_start plan <= task_date row /\
  (default 1 (td_day td) <= 7 -> task_date row <= week_start plan + 6).

(** An entry scheduled on one of the seven days of the week, or earlier. *)
Definition day_in_week (td : TaskData) : Prop := default 1 (td_day td) <= 7.

Definition dated (pid d : Z) (t : DailyTask) : Prop :=
  task_plan_id t = pid /\ task_date t = d.

#[global] Instance dated_dec pid d t : Decision (dated pid d t).
Proof. unfold dated. apply _. Defined.

(** The final query has no [order_by]: [engine] is the order in which
    the database returns its rows. *)
Definition get_today_tasks (engine : RowOrder) (db : Db) (today user_id : Z)
  : list DailyTask :=
  match first (ScoringService.active_plan_of user_id) (plans db) with
  | None => []
  | Some (_, plan) => arrange engine (filter (dated (plan_id plan) today) (daily_tasks db))
  end.

End PlanService.

(** ** Daily check-in ([checkin_service.py]) *)

Module CheckinService.

(** The object the content generator returns for a check-in; [None] is
    an absent key. *)
Record CheckinResponse := {
  cr_assessment : option string;
  cr_next_task : option string;
  cr_next_task_timebox : option Z;
  cr_fallback_task : option string;
  cr_blocker_advice : option string;
  cr_motivation_note : option string
}.

Definition rule_of (user_id : Z) (rt : string) (r : MemoryRule) : Prop :=
  rule_user_id r = user_id /\ rule_type r = rt.

#[global] Instance rule_of_dec u rt r : Decision (rule_of u rt r).
Proof. unfold rule_of. apply _. Defined.

(** [existing.confidence = min(1.0, existing.confidence + 0.1)] *)
Definition reinforced (c : float) : float := Float64.min f1_0 (Float64.add c f0_1).

Definition set_confidence (r : MemoryRule) (c : float) : MemoryRule :=
  {| rule_id := rule_id r; rule_user_id := rule_user_id r;
     rule_type := rule_type r; rule_value := rule_value r;
     confidence := c; rule_is_active := rule_is_active r |}.

Definition add_or_update (rules : list MemoryRule) (user_id : Z) (rt rv : string)
  : list MemoryRule :=
  match first (rule_of user_id rt) rules with
  | Some (i, existing) =>
      <[i := set_confidence existing (reinforced (confidence existing))]> rules
  | None =>
      rules ++ [ {| rule_id := next_id (map rule_id rules);
                    rule_user_id := user_id;
                    rule_type := rt;
                    rule_value := rv;
                    confidence := f0_5;
                    rule_is_active := true |} ]
  end.

(** The bound the specification puts on a stored confidence. *)
Definition at_most_one (r : MemoryRule) : Prop := leb (confidence r) f1_0 = true.

(** The pair a rule is looked up by. *)
Definition rule_key (r : MemoryRule) : Z * string := (rule_user_id r, rule_type r).

(** Two versions of a rule that differ in confidence at most. *)
Definition same_rule (r r' : MemoryRule) : Prop :=
  rule_id r' = rule_id r /\ rule_user_id r' = rule_user_id r /\
  rule_type r' = rule_type r /\ rule_value r' = rule_value r /\
  rule_is_active r' = rule_is_active r.

Definition with_rules (db : Db) (rs : list MemoryRule) : Db :=
  {| commitments := commitments db;
     plans := plans db;
     daily_tasks := daily_tasks db;
     checkins := checkins db;
     quizzes := quizzes db;
     memory_rules := rs |}.

Definition _add_or_update_rule (db : Db) (user_id : Z) (rt rv : string) : Db :=
  with_rules db (add_or_update (memory_rules db) user_id rt rv).

Definition skipped_words : list string :=
  ["nothing"; "didn't do anything"; "skipped"].

Definition says_skipped (yesterday : option string) : bool :=
  match yesterday with
  | Some s => negb (truthy yesterday) || existsb (String.eqb (lower s)) skipped_words
  | None => true
  end.

Definition mentions_time (blockers : option string) : bool :=
  match blockers with
  | Some s => truthy blockers && contains "time" (lower s)
  | None => false
  end.

Definition _update_memory_rules (db : Db) (user_id : Z) (yesterday blockers : option string)
  : Db :=
  let db1 :=
    if says_skipped yesterday
    then _add_or_update_rule db user_id "task_skip" "User skipped learning session"
    else db in
  if mentions_time blockers
  then _add_or_update_rule db1 user_id "time_constraint"
         "User frequently has time constraints - prefer shorter tasks"
  else db1.

(** The response used when the content generator raises. *)
Definition fallback_response (blockers : option string) : CheckinResponse :=
  {| cr_assessment := Some "Check-in received";
     cr_next_task := Some "Continue with your planned learning";
     cr_next_task_timebox := Some 45;
     cr_fallback_task := Some "Review yesterday's concepts for 15 minutes";
     cr_blocker_advice :=
       if truthy blockers then Some "Try breaking the problem into smaller steps"
       else None;
     cr_motivation_note := Some "Keep up the momentum!" |}.

Definition with_checkins (db : Db) (cs : list Checkin) : Db :=
  {| commitments := commitments db;
     plans := plans db;
     daily_tasks := daily_tasks db;
     checkins := cs;
     quizzes := quizzes db;
     memory_rules := memory_rules db |}.

(** [llm] is the outcome of the [structured_output] call ([None] when it
    raises) and [rag] the citations [_get_rag_guidance] returns.  The
    check-in and the rules are committed before the decision is built, so
    they are stored also when building it raises. *)
Definition process_checkin
    (db : Db) (today : Z) (llm : option CheckinResponse) (rag : list Citation)
    (user_id : Z) (yesterday today_plan blockers : option string)
  : outcome AgentDecision * Db :=
  match first (active_commitment_of user_id) (commitments db) with
  | None => (Returned no_commitment_decision, db)
  | Some (_, commitment) =>
      let rag_resources := if truthy blockers then rag else [] in
      let llm_response := default (fallback_response blockers) llm in
      let advice_text :=
        str_or (cr_blocker_advice llm_response) (cr_motivation_note llm_response) in
      let checkin :=
        {| checkin_id := next_id (map checkin_id (checkins db));
           checkin_user_id := user_id;
           checkin_date := today;
           checkin_yesterday := yesterday;
           checkin_today := today_plan;
           checkin_blockers := blockers;
           checkin_next_task := cr_next_task llm_response;
           checkin_fallback_task := cr_fallback_task llm_response;
           checkin_advice := advice_text |} in
      let db1 := with_checkins db (checkins db ++ [checkin]) in
      let db2 := _update_memory_rules db1 user_id yesterday blockers in
      let adherence_value :=
        match yesterday with
        | Some s => if truthy yesterday && Nat.ltb 10 (String.length s) then f0_8 else f0_5
        | None => f0_5
        end in
      let first_task :=
        {| nt_task := default "Continue learning" (cr_next_task llm_response);
           nt_timebox_min := default 45 (cr_next_task_timebox llm_response);
           nt_type := "reading" |} in
      let fallback_tasks :=
        match cr_fallback_task llm_response with
        | Some ft =>
            if truthy (Some ft)
            then [ {| nt_task := "[Fallback] " +:+ ft; nt_timebox_min := 20;
                      nt_type := "review" |} ]
            else []
        | None => []
        end in
      (match mapM resource_of rag_resources with
       | None => Raised "ValidationError"
       | Some resources =>
           validated
             {| reason := default "Check-in processed" (cr_assessment llm_response);
                advice := advice_text;
                signals := {| adherence := adherence_value; knowledge := f0_5;
                              retention := f0_5;
                              signals_status :=
                                if truthy blockers then "at_risk" else "active" |};
                action := {| plan_adjustment := "keep";
                             risk_mitigation :=
                               if truthy blockers then ["address_blocker"] else [] |};
                next_tasks := first_task :: fallback_tasks;
                resources_used := resources;
                quality_score := f1_0;
                quality_flags := [] |}
       end, db2)
  end.

End CheckinService.

(** ** The [complete_task] route ([api/v1/routes.py]) *)

Module Routes.

(** What a handler hands back to the framework: its return value, or the
    [HTTPException] it raised. *)
Inductive response (A : Type) :=
  | Ok (body : A)
  | HTTPException (status_code : Z) (detail : string).
Arguments Ok {A} body.
Arguments HTTPException {A} status_code detail.

Record Ack := { ack_message : string; ack_task_id : Z }.

Definition has_id (id : Z) (t : DailyTask) : Prop := task_id t = id.

#[global] Instance has_id_dec id t : Decision (has_id id t).
Proof. unfold has_id. apply _. Defined.

Definition set_completed (t : DailyTask) (now : Z) : DailyTask :=
  {| task_id := task_id t; task_plan_id := task_plan_id t;
     task_date := task_date t; task := task t; timebox_min := timebox_min t;
     task_type := task_type t;
     status := COMPLETED;
     started_at := started_at t;
     completed_at := Some now |}.

Definition with_daily_tasks (db : Db) (ts : list DailyTask) : Db :=
  {| commitments := commitments db;
     plans := plans db;
     daily_tasks := ts;
     checkins := checkins db;
     quizzes := quizzes db;
     memory_rules := memory_rules db |}.

(** [user_id] is the value of the [get_user_id] dependency, [now] the
    value of [datetime.utcnow()]. *)
Definition complete_task (db : Db) (now : Z) (task_id user_id : Z)
  : response Ack * Db :=
  match first (has_id task_id) (daily_tasks db) with
  | None => (HTTPException 404 "Task not found", db)
  | Some (i, t) =>
      (Ok {| ack_message := "Task completed"; ack_task_id := task_id |},
       with_daily_tasks db (<[i := set_completed t now]> (daily_tasks db)))
  end.

End Routes.

(** ** Sample states *)

Module Samples.

Definition learner : Commitment :=
  {| commitment_id := 1; commitment_user_id := 7; goal := "Rust";
     target_date := 800; weekly_hours := 10; commitment_is_active := true;
     commitment_created_at := 1 |}.

(** A user with an active commitment and nothing else. *)
Definition db_committed : Db :=
  {| commitments := [learner]; plans := []; daily_tasks := []; checkins := [];
     quizzes := []; memory_rules := [] |}.

(** The plan of the week starting on day 8 (a Monday), still active. *)
Definition last_week_plan : Plan :=
  {| plan_id := 1; plan_user_id := 7; week_start := 8; version := 1;
     plan_json := {| pj_week_focus := Some "Ownership"; pj_tasks := Some [] |};
     plan_is_active := true |}.

Definition db_last_week : Db :=
  {| commitments := [learner]; plans := [last_week_plan]; daily_tasks := [];
     checkins := []; quizzes := []; memory_rules := [] |}.

(** Two completed quizzes of user 7, the newer one without a score. *)
Definition db_null_score : Db :=
  {| commitments := []; plans := []; daily_tasks := []; checkins := [];
     quizzes := [ {| quiz_id := 1; quiz_user_id := 7; score := Some f1_0;
                     completed := true; quiz_created_at := 10 |};
                  {| quiz_id := 2; quiz_user_id := 7; score := None;
                     completed := true; quiz_created_at := 20 |} ];
     memory_rules := [] |}.

(** A generated plan whose only task is scheduled on day 9. *)
Definition plan_day_9 : PlanJson :=
  {| pj_week_focus := Some "Traits";
     pj_tasks := Some [ {| td_task := Some "Read chapter 10"; td_timebox_min := Some 45;
                           td_type := Some "reading"; td_day := Some 9 |} ] |}.

(** The rule a first skipped session leaves behind. *)
Definition active_rule : MemoryRule :=
  {| rule_id := 1; rule_user_id := 7; rule_type := "task_skip";
     rule_value := "User skipped learning session"; confidence := f0_5;
     rule_is_active := true |}.

(** A rule that was switched off. *)
Definition inactive_rule : MemoryRule :=
  {| rule_id := 1; rule_user_id := 7; rule_type := "task_skip";
     rule_value := "User skipped learning session"; confidence := f0_5;
     rule_is_active := false |}.

(** One pending task of plan 1 and one task another user's plan 2 lists
    as skipped. *)
Definition db_tasks : Db :=
  {| commitments := [learner]; plans := [last_week_plan];
     daily_tasks := [ {| task_id := 1; task_plan_id := 1; task_date := 8;
                         task := "Read chapter 4"; timebox_min := 45;
                         task_type := READING; status := PENDING;
                         started_at := None; completed_at := None |};
                      {| task_id := 2; task_plan_id := 2; task_date := 9;
                         task := "Borrow checker drill"; timebox_min := 20;
                         task_type := CODING; status := SKIPPED;
                         started_at := None; completed_at := None |} ];
     checkins := []; quizzes := []; memory_rules := [] |}.


Definition window_task (id d : Z) (st : TaskStatus) : DailyTask :=
  {| task_id := id; task_plan_id := 1; task_date := d; task := "Read";
     timebox_min := 45; task_type := READING; status := st;
     started_at := None; completed_at := None |}.

(** Tasks of plan 1 on days 2, 3, 5, 10 and 11; those of days 2, 3 and
    11 are completed. *)
Definition db_window : Db :=
  {| commitments := [learner]; plans := [last_week_plan];
     daily_tasks := [ window_task 1 2 COMPLETED; window_task 2 3 COMPLETED;
                      window_task 3 5 PENDING; window_task 4 10 PENDING;
                      window_task 5 11 COMPLETED ];
     checkins := []; quizzes := []; memory_rules := [] |}.

End Samples.

(** ** Further tables and services

    The premortem risks and the concept mastery counters live beside the
    tables above; a [Store] is the database with both. *)

Record PremortermRisk := {
  risk_id : Z;
  risk_commitment_id : Z;
  risk : string;
  mitigation : string;
  priority : Z
}.

Record ConceptMastery := {
  mastery_id : Z;
  mastery_user_id : Z;
  concept : string;
  times_seen : Z;
  times_correct : Z;
  times_wrong : Z
}.

Record Store := {
  core : Db;
  premortem_risks : list PremortermRisk;
  concept_mastery : list ConceptMastery
}.

Definition with_core (s : Store) (db : Db) : Store :=
  {| core := db; premortem_risks := premortem_risks s;
     concept_mastery := concept_mastery s |}.

Definition with_risks (s : Store) (rs : list PremortermRisk) : Store :=
  {| core := core s; premortem_risks := rs; concept_mastery := concept_mastery s |}.

(** [a / b] for two Python [int]s of any sign, [b <> 0]; a zero dividend
    over a negative divisor gives [-0.0]. *)
Definition int_truediv_signed (a b : Z) : float :=
  let q := round_ratio (Z.abs a) (Z.abs b) in
  if xorb (a <? 0) (b <? 0) then SFopp q else q.

(** [str.isspace()] on an ASCII character. *)
Definition is_space (c : Ascii.ascii) : bool :=
  let n := Ascii.nat_of_ascii c in
  (Nat.leb 9 n && Nat.leb n 13 || Nat.leb 28 n && Nat.leb n 32)%bool.

Fixpoint take_word (s : string) : string :=
  match s with
  | EmptyString => EmptyString
  | String c t => if is_space c then EmptyString else String c (take_word t)
  end.

(** [s.split()[0]]: the first run of non-blank characters, [None] where
    the list is empty and the index raises [IndexError]. *)
Fixpoint first_word (s : string) : option string :=
  match s with
  | EmptyString => None
  | String c t => if is_space c then first_word t else Some (String c (take_word t))
  end.

(** ** Retention and the metrics summary ([scoring_service.py]) *)

Module Metrics.

Definition mastery_of (user_id : Z) (c : ConceptMastery) : Prop :=
  mastery_user_id c = user_id.

#[global] Instance mastery_of_dec u c : Decision (mastery_of u c).
Proof. unfold mastery_of. apply _. Defined.

(** [sum(...)] over [int]s. *)
Definition sum_int (xs : list Z) : Z := foldl Z.add 0 xs.

Definition calculate_retention (s : Store) (user_id : Z) : float :=
  let concepts := filter (mastery_of user_id) (concept_mastery s) in
  match concepts with
  | [] => f0_0
  | _ :: _ =>
      let total_seen := sum_int (map times_seen concepts) in
      let total_correct := sum_int (map times_correct concepts) in
      if total_seen =? 0 then f0_0
      else round (int_truediv_signed total_correct total_seen) 2
  end.

Definition calculate_recovery_effectiveness (s : Store) (user_id : Z) : float := f0_8.

(** The dictionary [get_full_metrics] returns. *)
Record Summary := {
  adherence_score : float;
  knowledge_score : float;
  retention_score : float;
  recovery_effectiveness : float;
  current_week : Z;
  weeks_remaining : Z;
  summary_status : string
}.

(** [commitment_created_at] is the day [created_at.date()]. *)
Definition get_full_metrics (s : Store) (today user_id : Z) : Summary :=
  let a := ScoringService.calculate_adherence (core s) today user_id 7 in
  let k := ScoringService.calculate_knowledge (core s) user_id in
  let r := calculate_retention s user_id in
  let recovery := calculate_recovery_effectiveness s user_id in
  let st := ScoringService.get_user_status (core s) today user_id in
  let '(week, remaining) :=
    match first (active_commitment_of user_id) (commitments (core s)) with
    | Some (_, commitment) =>
        (Z.max 1 ((today - commitment_created_at commitment) / 7 + 1),
         Z.max 0 ((target_date commitment - today) / 7))
    | None => (1, 4)
    end in
  {| adherence_score := a; knowledge_score := k; retention_score := r;
     recovery_effectiveness := recovery; current_week := week;
     weeks_remaining := remaining; summary_status := st |}.

End Metrics.

(** ** The decision engine ([decision_engine.py]) *)

Module DecisionEngine.

Definition get_signals (s : Store) (today user_id : Z) : Signals :=
  let metrics := Metrics.get_full_metrics s today user_id in
  {| adherence := Metrics.adherence_score metrics;
     knowledge := Metrics.knowledge_score metrics;
     retention := Metrics.retention_score metrics;
     signals_status := Metrics.summary_status metrics |}.

Definition risk_of (cid : Z) (r : PremortermRisk) : Prop := risk_commitment_id r = cid.

#[global] Instance risk_of_dec cid r : Decision (risk_of cid r).
Proof. unfold risk_of. apply _. Defined.

Definition by_priority (a b : PremortermRisk) : Prop := priority a <= priority b.

#[global] Instance by_priority_dec a b : Decision (by_priority a b).
Proof. unfold by_priority. apply _. Defined.

Definition has_mitigation (r : PremortermRisk) : Prop := mitigation r <> ""%string.

#[global] Instance has_mitigation_dec r : Decision (has_mitigation r).
Proof. unfold has_mitigation. apply _. Defined.

(** The three risks of a commitment that come first by priority. *)
Definition top_risks (s : Store) (cid : Z) : list PremortermRisk :=
  take 3 (merge_sort by_priority (filter (risk_of cid) (premortem_risks s))).

Definition get_active_mitigations (s : Store) (user_id : Z) : list string :=
  match first (active_commitment_of user_id) (commitments (core s)) with
  | None => []
  | Some (_, commitment) =>
      map mitigation (filter has_mitigation (top_risks s (commitment_id commitment)))
  end.

Definition generate_action (s : Store) (today user_id : Z) : Action :=
  let signals := get_signals s today user_id in
  let adjustment :=
    AdaptationPolicy.determine_adjustment
      (adherence signals) (knowledge signals) (retention signals) in
  let mitigations := get_active_mitigations s user_id in
  let mitigations :=
    if String.eqb (signals_status signals) "at_risk"
       && negb (existsb (String.eqb "check_in_reminder") mitigations)
    then mitigations ++ ["check_in_reminder"%string]
    else mitigations in
  {| plan_adjustment := adjustment; risk_mitigation := take 3 mitigations |}.

(** [resources_used] and [quality_flags] are optional arguments, replaced
    by the empty list when they are missing or empty. *)
Definition build_decision (s : Store) (today user_id : Z) (reason_text : string)
    (tasks : list NextTask) (resources : option (list ResourceUsed))
    (score : float) (flags : option (list string)) : AgentDecision :=
  {| reason := reason_text;
     advice := None;
     signals := get_signals s today user_id;
     action := generate_action s today user_id;
     next_tasks := tasks;
     resources_used := default [] resources;
     quality_score := score;
     quality_flags := default [] flags |}.

End DecisionEngine.

(** ** Intake ([intake_service.py]) *)

Module IntakeService.

(** The object the content generator returns for an intake; [None] is an
    absent key. *)
Record IntakeResponse := {
  ir_reason : option string;
  ir_initial_tasks : option (list string)
}.

Definition set_commitment_inactive (c : Commitment) : Commitment :=
  {| commitment_id := commitment_id c; commitment_user_id := commitment_user_id c;
     goal := goal c; target_date := target_date c; weekly_hours := weekly_hours c;
     commitment_is_active := false;
     commitment_created_at := commitment_created_at c |}.

(** The bulk update that deactivates the user's active commitments. *)
Definition deactivate (user_id : Z) (c : Commitment) : Commitment :=
  if decide (active_commitment_of user_id c) then set_commitment_inactive c else c.

Definition with_commitments (db : Db) (cs : list Commitment) : Db :=
  {| commitments := cs;
     plans := plans db;
     daily_tasks := daily_tasks db;
     checkins := checkins db;
     quizzes := quizzes db;
     memory_rules := memory_rules db |}.

(** [created] is the day of [datetime.utcnow()] and [llm] the outcome of
    the [structured_output] call, [None] when it raises.  The columns
    [background], [baseline_level] and [learning_style] are written but
    read by none of the services of this development, and the
    [Commitment] record does not carry them.  The second component of the
    result lists the [priority] of each entry of [next_tasks]. *)
Definition create_commitment
    (db : Db) (created : Z) (llm : option IntakeResponse)
    (user_id : Z) (goal_text : string) (target : Z) (hours : Z)
  : AgentDecision * list Z * Db :=
  let old := map (deactivate user_id) (commitments db) in
  let commitment :=
    {| commitment_id := next_id (map commitment_id old);
       commitment_user_id := user_id;
       goal := goal_text;
       target_date := target;
       weekly_hours := hours;
       commitment_is_active := true;
       commitment_created_at := created |} in
  let db' := with_commitments db (old ++ [commitment]) in
  let '(reason_text, initial_tasks) :=
    match llm with
    | Some response =>
        (default "Commitment created successfully" (ir_reason response),
         default ["Complete premortem assessment"] (ir_initial_tasks response))
    | None =>
        ("Commitment created successfully. Let's start with a premortem assessment.",
         ["Complete premortem assessment"])
    end%string in
  let first_task :=
    {| nt_task := match initial_tasks with
                  | t :: _ => t
                  | [] => "Complete premortem assessment"
                  end;
       nt_timebox_min := 15; nt_type := "review" |} in
  let more :=
    match initial_tasks with
    | _ :: t :: _ => [ ({| nt_task := t; nt_timebox_min := 20; nt_type := "reading" |}, 2) ]
    | _ => []
    end in
  let tasks := (first_task, 1) :: more in
  ({| reason := reason_text;
      advice := None;
      signals := {| adherence := f1_0; knowledge := f0_0; retention := f0_0;
                    signals_status := "active" |};
      action := {| plan_adjustment := "keep"; risk_mitigation := [] |};
      next_tasks := map fst tasks;
      resources_used := [];
      quality_score := f1_0;
      quality_flags := [] |},
   map snd tasks, db').

Definition get_active_commitment (db : Db) (user_id : Z) : option Commitment :=
  snd <$> first (active_commitment_of user_id) (commitments db).

End IntakeService.

(** ** Premortem ([premortem_service.py]) *)

Module PremortermService.

(** One entry of the ["risks"] array of the generator's answer. *)
Record RiskData := {
  rd_risk : option string;
  rd_mitigation : option string;
  rd_priority : option Z
}.

Record PremortemResponse := {
  pr_risks : option (list RiskData);
  pr_summary : option string
}.

(** The risks used when the content generator raises: one per stated
    reason, five at most, numbered from 1. *)
Definition fallback_risks (failure_reasons : list string) : list RiskData :=
  imap (fun i r => {| rd_risk := Some r;
                      rd_mitigation := Some "Create accountability checkpoint"%string;
                      rd_priority := Some (Z.of_nat i + 1) |})
       (take 5 failure_reasons).

Definition add_risk (cid : Z) (rows : list PremortermRisk) (risk_data : RiskData)
  : list PremortermRisk :=
  rows ++ [ {| risk_id := next_id (map risk_id rows);
               risk_commitment_id := cid;
               risk := default "" (rd_risk risk_data);
               mitigation := default "" (rd_mitigation risk_data);
               priority := default 5 (rd_priority risk_data) |} ].

Definition not_risk_of (cid : Z) (r : PremortermRisk) : Prop := risk_commitment_id r <> cid.

#[global] Instance not_risk_of_dec cid r : Decision (not_risk_of cid r).
Proof. unfold not_risk_of. apply _. Defined.

(** [llm] is the outcome of the [structured_output] call, [None] when it
    raises.  The risks are committed before the decision is built, so
    they are stored also when building it raises. *)
Definition process_premortem
    (s : Store) (llm : option PremortemResponse) (user_id : Z)
    (failure_reasons : list string)
  : outcome AgentDecision * Store :=
  match first (active_commitment_of user_id) (commitments (core s)) with
  | None => (Returned no_commitment_decision, s)
  | Some (_, commitment) =>
      let '(risks, summary) :=
        match llm with
        | Some response =>
            (default [] (pr_risks response),
             default "Risk assessment complete" (pr_summary response))
        | None =>
            (fallback_risks failure_reasons,
             "Risk assessment complete. Consider these mitigations.")
        end%string in
      let kept :=
        filter (not_risk_of (commitment_id commitment)) (premortem_risks s) in
      let s' := with_risks s (foldl (add_risk (commitment_id commitment)) kept risks) in
      let mitigation_rules :=
        map (fun r => String.substring 0 50 (default "" (rd_mitigation r))) (take 3 risks) in
      let start :=
        if String.eqb (goal commitment) "" then Some "basics"%string
        else first_word (goal commitment) in
      match start with
      | None => (Raised "IndexError", s')
      | Some word =>
          (Returned
             {| reason := summary;
                advice := None;
                signals := {| adherence := f1_0; knowledge := f0_0; retention := f0_0;
                              signals_status := "active" |};
                action := {| plan_adjustment := "keep";
                             risk_mitigation := mitigation_rules |};
                next_tasks :=
                  [ {| nt_task := "Review your weekly learning plan";
                       nt_timebox_min := 20; nt_type := "reading" |};
                    {| nt_task := "Start with: " +:+ word;
                       nt_timebox_min := 45; nt_type := "reading" |} ];
                resources_used := [];
                quality_score := f1_0;
                quality_flags := [] |}, s')
      end
  end.

Definition get_risks (s : Store) (cid : Z) : list PremortermRisk :=
  merge_sort DecisionEngine.by_priority (filter (DecisionEngine.risk_of cid) (premortem_risks s)).

(** The risks a premortem stores, as (risk, mitigation, priority). *)
Definition submitted (llm : option PremortemResponse) (failure_reasons : list string)
  : list (string * string * Z) :=
  map (fun d => (default ""%string (rd_risk d), default ""%string (rd_mitigation d),
                 default 5 (rd_priority d)))
      (match llm with
       | Some response => default [] (pr_risks response)
       | None => fallback_risks failure_reasons
       end).

End PremortermService.

(** ** Further sample states *)

Module MoreSamples.

Definition mastery (id seen correct : Z) : ConceptMastery :=
  {| mastery_id := id; mastery_user_id := 7; concept := "ownership";
     times_seen := seen; times_correct := correct; times_wrong := seen - correct |}.

Definition risk_row (id prio : Z) (m : string) : PremortermRisk :=
  {| risk_id := id; risk_commitment_id := 1; risk := "No time"; mitigation := m;
     priority := prio |}.

(** The learner of [Samples] with two mastery rows and two stored risks. *)
Definition store : Store :=
  {| core := Samples.db_tasks;
     premortem_risks := [ risk_row 1 2 "Block the calendar"; risk_row 2 1 "Study at lunch" ];
     concept_mastery := [ mastery 1 4 3; mastery 2 6 4 ] |}.

(** A commitment whose goal is blank. *)
Definition blank_goal : Commitment :=
  {| commitment_id := 1; commitment_user_id := 7; goal := "   ";
     target_date := 800; weekly_hours := 10; commitment_is_active := true;
     commitment_created_at := 1 |}.

Definition blank_store : Store :=
  {| core := {| commitments := [blank_goal]; plans := []; daily_tasks := [];
                checkins := []; quizzes := []; memory_rules := [] |};
     premortem_risks := []; concept_mastery := [] |}.

End MoreSamples.

(** ** Properties of the rounding functions *)

Section Rounding.

Lemma div_half_even_exact (k b : Z) :
  0 < b -> div_half_even (k * b) b = k.
Proof.
  intros Hb. unfold div_half_even.
  rewrite Z.div_mul by lia. rewrite Z.mod_mul by lia.
  replace (2 * 0) with 0 by lia.
  destruct (Z.compare_spec 0 b); lia.
Qed.

Lemma div_half_even_range (a b : Z) :
  0 < b -> a / b <= div_half_even a b <= a / b + 1.
Proof.
  intros Hb. unfold div_half_even.
  destruct (2 * (a mod b) ?= b); [destruct (Z.even (a / b)) | |]; lia.
Qed.

Lemma div_half_even_mono (a1 a2 b : Z) :
  0 < b -> a1 <= a2 -> div_half_even a1 b <= div_half_even a2 b.
Proof.
  intros Hb Ha.
  assert (Hq : a1 / b <= a2 / b) by (apply Z.div_le_mono; lia).
  destruct (Z.eq_dec (a1 / b) (a2 / b)) as [Heq | Hne].
  - assert (Hr : a1 mod b <= a2 mod b).
    { rewrite !Z.mod_eq by lia. rewrite Heq. lia. }
    unfold div_half_even. rewrite Heq.
    destruct (Z.compare_spec (2 * (a1 mod b)) b),
             (Z.compare_spec (2 * (a2 mod b)) b);
      destruct (Z.even (a2 / b)); lia.
  - pose proof (div_half_even_range a1 b Hb).
    pose proof (div_half_even_range a2 b Hb). lia.
Qed.

Lemma div_half_even_le (a b k : Z) :
  0 < b -> a <= k * b -> div_half_even a b <= k.
Proof.
  intros Hb Ha. rewrite <- (div_half_even_exact k b Hb).
  now apply div_half_even_mono.
Qed.

Lemma div_half_even_ge (a b k : Z) :
  0 < b -> k * b <= a -> k <= div_half_even a b.
Proof.
  intros Hb Ha. rewrite <- (div_half_even_exact k b Hb) at 1.
  now apply div_half_even_mono.
Qed.

Lemma div_half_even_scale (a b c : Z) :
  0 < b -> 0 < c -> div_half_even (a * c) (b * c) = div_half_even a b.
Proof.
  intros Hb Hc. unfold div_half_even.
  rewrite Z.div_mul_cancel_r by lia.
  rewrite Z.mul_mod_distr_r by lia.
  assert (Hcmp : (2 * (a mod b * c) ?= b * c) = (2 * (a mod b) ?= b)).
  { destruct (Z.compare_spec (2 * (a mod b)) b) as [H | H | H].
    - apply Z.compare_eq_iff. nia.
    - apply Z.compare_lt_iff. nia.
    - apply Z.compare_gt_iff. nia. }
  rewrite Hcmp. reflexivity.
Qed.

Lemma ratio_log2_spec (n d : Z) :
  0 < n <= d ->
  exists f, ratio_log2 n d = - f /\ 0 <= f /\ d <= n * 2 ^ f /\ n * 2 ^ f < 2 * d.
Proof.
  intros [Hn Hnd].
  assert (Hd : 0 < d) by lia.
  pose proof (Z.log2_spec n Hn) as [Ha1 Ha2].
  pose proof (Z.log2_spec d Hd) as [Hb1 Hb2].
  pose proof (Z.log2_le_mono n d Hnd) as Hab.
  pose proof (Z.log2_nonneg n) as Ha0.
  rewrite Z.pow_succ_r in Ha2, Hb2 by apply Z.log2_nonneg.
  unfold ratio_log2, pow2_le.
  replace (- (Z.log2 n - Z.log2 d)) with (Z.log2 d - Z.log2 n) by lia.
  remember (Z.log2 n) as a eqn:Ea. remember (Z.log2 d) as b eqn:Eb.
  assert (HP : 2 ^ a * 2 ^ (b - a) = 2 ^ b).
  { rewrite <- Z.pow_add_r by lia. f_equal. lia. }
  assert (HP0 : 0 < 2 ^ (b - a)) by (apply Z.pow_pos_nonneg; lia).
  remember (2 ^ a) as A. remember (2 ^ b) as B.
  destruct (Z.leb_spec 0 (a - b)) as [Hl | Hl].
  - replace (a - b) with 0 by lia. change (2 ^ 0) with 1.
    assert (A = B) by (rewrite HeqA, HeqB; f_equal; lia).
    destruct (Z.leb_spec (d * 1) n).
    + exists 0. change (2 ^ 0) with 1. lia.
    + exists 1. change (2 ^ 1) with 2. lia.
  - remember (2 ^ (b - a)) as P.
    destruct (Z.leb_spec d (n * P)).
    + exists (b - a). rewrite <- HeqP. repeat split; try lia. nia.
    + exists (b - a + 1). rewrite Z.pow_add_r by lia. rewrite <- HeqP.
      change (2 ^ 1) with 2. repeat split; try lia; nia.
Qed.

Lemma pack_ulps (M E : Z) :
  0 <= M <= 2 ^ 53 -> -1074 <= E <= 900 ->
  nonneg_finite (pack M E) /\ ulps (pack M E) = M * 2 ^ (E + 1074).
Proof.
  intros HM HE. unfold pack.
  destruct M as [| p | p]; [simpl; lia | | lia].
  destruct (Z.eqb_spec (Z.pos p) (2 ^ 53)) as [Heq | Hne].
  - destruct (Z.leb_spec (E + 1) (emax - prec)) as [_ | Hov];
      [| unfold emax, prec in Hov; lia].
    split; [simpl; lia |].
    unfold ulps. rewrite Heq.
    replace (E + 1 + 1074) with (E + 1074 + 1) by lia.
    rewrite Z.pow_add_r by lia.
    change (Z.pos (Z.to_pos (2 ^ 52))) with (2 ^ 52).
    change (2 ^ 53) with (2 ^ 52 * 2 ^ 1). ring.
  - destruct (Z.leb_spec E (emax - prec)) as [_ | Hov];
      [| unfold emax, prec in Hov; lia].
    split; [simpl; lia | reflexivity].
Qed.

Lemma round_ratio_ulps (n d : Z) :
  0 < n <= d ->
  exists M G,
    G = Z.min (52 - ratio_log2 n d) 1074 /\
    M = div_half_even (n * 2 ^ G) d /\
    52 <= G <= 1074 /\ 0 <= M <= 2 ^ 53 /\ (G < 1074 -> 2 ^ 52 <= M) /\
    nonneg_finite (round_ratio n d) /\
    ulps (round_ratio n d) = M * 2 ^ (1074 - G).
Proof.
  intros Hnd.
  destruct (ratio_log2_spec n d Hnd) as (f & Hf & Hf0 & Hlo & Hhi).
  exists (div_half_even (n * 2 ^ Z.min (52 - ratio_log2 n d) 1074) d),
         (Z.min (52 - ratio_log2 n d) 1074).
  split; [reflexivity |]. split; [reflexivity |].
  unfold round_ratio.
  destruct (Z.leb_spec n 0) as [? | _]; [lia |].
  unfold ratio_mantissa, ratio_ulp_exp. rewrite Hf.
  replace (Z.max (- f - 52) (-1074)) with (- Z.min (52 - - f) 1074) by lia.
  set (G := Z.min (52 - - f) 1074).
  assert (HG : 52 <= G <= 1074) by (unfold G; lia).
  destruct (Z.leb_spec 0 (- G)) as [? | _]; [lia |].
  rewrite Z.opp_involutive.
  assert (HPG : 0 < 2 ^ G) by (apply Z.pow_pos_nonneg; lia).
  assert (HM : 0 <= div_half_even (n * 2 ^ G) d <= 2 ^ 53).
  { split.
    - apply div_half_even_ge; nia.
    - apply div_half_even_le; [lia |].
      assert (Hle : 2 ^ G <= 2 ^ (f + 52)) by (apply Z.pow_le_mono_r; unfold G; lia).
      rewrite Z.pow_add_r in Hle by lia.
      change (2 ^ 53) with (2 * 2 ^ 52).
      remember (2 ^ G) as PG. remember (2 ^ f) as Pf. remember (2 ^ 52) as P52.
      assert (0 < P52) by (subst P52; reflexivity).
      nia. }
  assert (HM' : G < 1074 -> 2 ^ 52 <= div_half_even (n * 2 ^ G) d).
  { intros HG'. apply div_half_even_ge; [lia |].
    assert (HGf : G = f + 52) by (unfold G; lia).
    rewrite HGf, Z.pow_add_r by lia.
    remember (2 ^ f) as Pf. remember (2 ^ 52) as P52.
    assert (0 < P52) by (subst P52; reflexivity).
    nia. }
  destruct (pack_ulps (div_half_even (n * 2 ^ G) d) (- G) HM ltac:(lia)) as [Hs Hu].
  rewrite Hu. replace (- G + 1074) with (1074 - G) by lia.
  repeat split; try lia; try exact Hs; try exact HM'.
Qed.

Lemma ratio_log2_mono (n1 n2 d : Z) :
  0 < n1 <= n2 -> n2 <= d -> ratio_log2 n1 d <= ratio_log2 n2 d.
Proof.
  intros Hn Hd.
  destruct (ratio_log2_spec n1 d ltac:(lia)) as (f1 & -> & Hf1 & Hlo1 & Hhi1).
  destruct (ratio_log2_spec n2 d ltac:(lia)) as (f2 & -> & Hf2 & Hlo2 & Hhi2).
  destruct (Z_lt_le_dec f1 f2) as [Hlt | Hge]; [exfalso | lia].
  assert (Hle : 2 ^ (f1 + 1) <= 2 ^ f2) by (apply Z.pow_le_mono_r; lia).
  rewrite Z.pow_add_r in Hle by lia. change (2 ^ 1) with 2 in Hle.
  remember (2 ^ f1) as P1. remember (2 ^ f2) as P2. nia.
Qed.

Lemma ulps_nonneg (x : float) : 0 <= ulps x.
Proof.
  destruct x as [| | | [] m e]; simpl; lia.
Qed.

Lemma round_ratio_ulps_mono (n1 n2 d : Z) :
  0 <= n1 <= n2 -> n2 <= d ->
  ulps (round_ratio n1 d) <= ulps (round_ratio n2 d).
Proof.
  intros Hn Hd.
  destruct (Z.eq_dec n1 0) as [-> | Hn1]; [apply ulps_nonneg |].
  destruct (round_ratio_ulps n1 d ltac:(lia))
    as (M1 & G1 & HG1 & HM1 & HG1r & HM1r & HM1n & _ & ->).
  destruct (round_ratio_ulps n2 d ltac:(lia))
    as (M2 & G2 & HG2 & HM2 & HG2r & HM2r & HM2n & _ & ->).
  pose proof (ratio_log2_mono n1 n2 d ltac:(lia) Hd) as Hlog.
  assert (HG : G2 <= G1) by lia.
  destruct (Z.eq_dec G1 G2) as [Heq | Hne].
  - rewrite <- Heq in *.
    apply Z.mul_le_mono_nonneg_r; [apply Z.pow_nonneg; lia |].
    rewrite HM1, HM2. apply div_half_even_mono; [lia |].
    apply Z.mul_le_mono_nonneg_r; [apply Z.pow_nonneg; lia | lia].
  - assert (HM2' : 2 ^ 52 <= M2) by (apply HM2n; lia).
    assert (Hp : 2 * 2 ^ (1074 - G1) <= 2 ^ (1074 - G2)).
    { replace (2 * 2 ^ (1074 - G1)) with (2 ^ (1074 - G1 + 1))
        by (rewrite Z.pow_add_r by lia; change (2 ^ 1) with 2; ring).
      apply Z.pow_le_mono_r; lia. }
    assert (0 < 2 ^ (1074 - G1)) by (apply Z.pow_pos_nonneg; lia).
    change (2 ^ 53) with (2 * 2 ^ 52) in HM1r.
    remember (2 ^ (1074 - G1)) as Q1. remember (2 ^ (1074 - G2)) as Q2.
    remember (2 ^ 52) as P52.
    assert (0 < P52) by (subst P52; reflexivity).
    clear HM1 HM2 HeqQ1 HeqQ2 HeqP52. nia.
Qed.

Lemma round_ratio_ulps_same (d : Z) :
  0 < d -> ulps (round_ratio d d) = 2 ^ 1074.
Proof.
  intros Hd.
  destruct (round_ratio_ulps d d ltac:(lia))
    as (M & G & HG & HM & _ & _ & _ & _ & ->).
  destruct (ratio_log2_spec d d ltac:(lia)) as (f & Hf & Hf0 & Hlo & Hhi).
  assert (f = 0).
  { destruct (Z.eq_dec f 0) as [| Hne]; [assumption | exfalso].
    assert (Hle : 2 ^ 1 <= 2 ^ f) by (apply Z.pow_le_mono_r; lia).
    change (2 ^ 1) with 2 in Hle. nia. }
  subst f. rewrite Hf in HG. change (Z.min (52 - - 0) 1074) with 52 in HG.
  subst G. rewrite Z.mul_comm in HM. rewrite div_half_even_exact in HM by lia.
  subst M. rewrite <- Z.pow_add_r by lia. reflexivity.
Qed.

Lemma round_2_hundredths (x : float) :
  nonneg_finite x -> round x 2 = round_ratio (hundredths x) 100.
Proof.
  destruct x as [[] | | | [] m e]; simpl; intros H; try contradiction; reflexivity.
Qed.

Lemma hundredths_ulps (x : float) :
  nonneg_finite x -> hundredths x = div_half_even (100 * ulps x) (2 ^ 1074).
Proof.
  assert (H1074 : 0 < 2 ^ 1074) by (apply Z.pow_pos_nonneg; lia).
  destruct x as [[] | | | [] m e]; simpl; intros H; try contradiction.
  - symmetry. apply (div_half_even_exact 0). exact H1074.
  - unfold scaled_half_even.
    destruct (Z.leb_spec 0 e) as [He | He].
    + rewrite Z.pow_add_r by lia.
      replace (100 * (Z.pos m * (2 ^ e * 2 ^ 1074)))
        with (100 * Z.pos m * 2 ^ e * 2 ^ 1074) by ring.
      symmetry. apply div_half_even_exact. exact H1074.
    + replace (2 ^ 1074) with (2 ^ (- e) * 2 ^ (e + 1074))
        by (rewrite <- Z.pow_add_r by lia; f_equal; lia).
      replace (100 * (Z.pos m * 2 ^ (e + 1074)))
        with (100 * Z.pos m * 2 ^ (e + 1074)) by ring.
      symmetry. apply div_half_even_scale; apply Z.pow_pos_nonneg; lia.
Qed.

Lemma hundredths_round_ratio_mono (n1 n2 d : Z) :
  0 <= n1 <= n2 -> n2 <= d -> 0 < d ->
  0 <= hundredths (round_ratio n1 d) <= hundredths (round_ratio n2 d) /\
  hundredths (round_ratio n2 d) <= 100.
Proof.
  intros Hn Hd Hd0.
  assert (H1074 : 0 < 2 ^ 1074) by (apply Z.pow_pos_nonneg; lia).
  assert (Hnf : forall n, 0 <= n <= d -> nonneg_finite (round_ratio n d)).
  { intros n Hn'. destruct (Z.eq_dec n 0) as [-> | ?]; [exact I |].
    destruct (round_ratio_ulps n d ltac:(lia)) as (? & ? & ? & ? & ? & ? & ? & H & ?).
    exact H. }
  rewrite !hundredths_ulps by (apply Hnf; lia).
  repeat split.
  - apply (div_half_even_ge _ _ 0); [lia |].
    pose proof (ulps_nonneg (round_ratio n1 d)). lia.
  - apply div_half_even_mono; [lia |].
    pose proof (round_ratio_ulps_mono n1 n2 d Hn Hd). lia.
  - apply div_half_even_le; [lia |].
    pose proof (round_ratio_ulps_mono n2 d d ltac:(lia) ltac:(lia)) as H.
    rewrite round_ratio_ulps_same in H by lia. lia.
Qed.

Lemma forallb_seq_square (f : nat -> nat -> bool) (n i j : nat) :
  forallb (fun i => forallb (f i) (seq 0 n)) (seq 0 n) = true ->
  (i < n)%nat -> (j < n)%nat -> f i j = true.
Proof.
  intros Ht Hi Hj. rewrite forallb_forall in Ht.
  specialize (Ht i ltac:(apply in_seq; lia)).
  rewrite forallb_forall in Ht. apply Ht. apply in_seq. lia.
Qed.

Lemma hundredths_sorted :
  forallb (fun i => forallb (hundredths_le i) (seq 0 101)) (seq 0 101) = true.
Proof. vm_compute. reflexivity. Qed.

Lemma hundredths_le_true (i j : nat) :
  (i < 101)%nat -> (j < 101)%nat -> hundredths_le i j = true.
Proof. exact (forallb_seq_square hundredths_le 101 i j hundredths_sorted). Qed.

Lemma round_ratio_100_mono (k1 k2 : Z) :
  0 <= k1 <= k2 -> k2 <= 100 ->
  leb (round_ratio k1 100) (round_ratio k2 100) = true.
Proof.
  intros Hk Hk2.
  pose proof (hundredths_le_true (Z.to_nat k1) (Z.to_nat k2)
                ltac:(lia) ltac:(lia)) as Ht.
  unfold hundredths_le in Ht. rewrite !Z2Nat.id in Ht by lia.
  destruct (Nat.leb_spec (Z.to_nat k1) (Z.to_nat k2)); [exact Ht | lia].
Qed.

(** The rounding of a ratio coincides with the division of the standard
    library's IEEE 754 specification on all small operands. *)
Lemma round_ratio_agrees_with_div :
  forallb (fun c => forallb (agrees_with_div c) (seq 0 64)) (seq 0 64) = true.
Proof. vm_compute. reflexivity. Qed.

Lemma literals_nearest :
  f1_0 = round_ratio 1 1 /\ f0_1 = round_ratio 1 10 /\ f0_3 = round_ratio 3 10 /\
  f0_5 = round_ratio 5 10 /\ f0_6 = round_ratio 6 10 /\ f0_8 = round_ratio 8 10.
Proof. vm_compute. repeat split. Qed.

End Rounding.

(** ** Scoring *)

Section Scoring.

Import ScoringService.

Lemma round_ratio_nonneg_finite (n d : Z) :
  0 <= n <= d -> 0 < d -> nonneg_finite (round_ratio n d).
Proof.
  intros Hn Hd. destruct (Z.eq_dec n 0) as [-> | ?]; [exact I |].
  destruct (round_ratio_ulps n d ltac:(lia)) as (? & ? & ? & ? & ? & ? & ? & H & ?).
  exact H.
Qed.

Lemma adherence_of_counts_pos (c t : nat) :
  (0 < t)%nat ->
  adherence_of_counts c t
  = round (int_truediv (N.of_nat c) (Pos.of_nat t)) 2.
Proof.
  intros Ht. unfold adherence_of_counts.
  destruct t as [| t']; [lia |].
  rewrite <- Pos.of_nat_succ. reflexivity.
Qed.

Lemma adherence_of_counts_hundredths (c t : nat) :
  (c <= t)%nat -> (0 < t)%nat ->
  exists k, 0 <= k <= 100 /\
    k = hundredths (round_ratio (Z.of_nat c) (Z.of_nat t)) /\
    adherence_of_counts c t = round_ratio k 100.
Proof.
  intros Hc Ht. rewrite adherence_of_counts_pos by exact Ht.
  unfold int_truediv. rewrite nat_N_Z.
  replace (Z.pos (Pos.of_nat t)) with (Z.of_nat t) by lia.
  exists (hundredths (round_ratio (Z.of_nat c) (Z.of_nat t))).
  destruct (hundredths_round_ratio_mono (Z.of_nat c) (Z.of_nat c) (Z.of_nat t))
    as [[H0 _] H100]; try lia.
  split; [lia |]. split; [reflexivity |].
  apply round_2_hundredths. apply round_ratio_nonneg_finite; lia.
Qed.

Lemma adherence_of_counts_mono (c1 c2 t : nat) :
  (c1 <= c2)%nat -> (c2 <= t)%nat ->
  leb (adherence_of_counts c1 t) (adherence_of_counts c2 t) = true.
Proof.
  intros H12 H2t. destruct (Nat.eq_dec t 0%nat) as [-> | Ht].
  - destruct c1, c2; try lia. reflexivity.
  - destruct (adherence_of_counts_hundredths c1 t ltac:(lia) ltac:(lia))
      as (k1 & Hk1 & Ek1 & ->).
    destruct (adherence_of_counts_hundredths c2 t ltac:(lia) ltac:(lia))
      as (k2 & Hk2 & Ek2 & ->).
    apply round_ratio_100_mono; [| lia].
    destruct (hundredths_round_ratio_mono (Z.of_nat c1) (Z.of_nat c2) (Z.of_nat t))
      as [[H0 Hle] H100]; lia.
Qed.

Lemma adherence_of_counts_unit (c t : nat) :
  (c <= t)%nat ->
  leb f0_0 (adherence_of_counts c t) = true /\
  leb (adherence_of_counts c t) f1_0 = true.
Proof.
  intros Hc. destruct (Nat.eq_dec t 0%nat) as [-> | Ht].
  - split; reflexivity.
  - destruct (adherence_of_counts_hundredths c t ltac:(lia) ltac:(lia))
      as (k & Hk & _ & ->).
    split.
    + change f0_0 with (round_ratio 0 100). apply round_ratio_100_mono; lia.
    + replace f1_0 with (round_ratio 100 100) by (vm_compute; reflexivity).
      apply round_ratio_100_mono; lia.
Qed.

Lemma length_filter_and {A} (P Q : A -> Prop)
    `{!forall x, Decision (P x)} `{!forall x, Decision (Q x)}
    `{!forall x, Decision (P x /\ Q x)} (l : list A) :
  (length (filter (fun x => P x /\ Q x) l) <= length (filter P l))%nat.
Proof.
  induction l as [| x l IH]; [reflexivity |].
  rewrite !filter_cons. repeat case_decide; simpl; try lia. tauto.
Qed.

Lemma div_half_even_near (a b : Z) :
  0 < b -> 2 * Z.abs (div_half_even a b * b - a) <= b.
Proof.
  intros Hb. unfold div_half_even.
  pose proof (Z.div_mod a b ltac:(lia)) as Hdm.
  pose proof (Z.mod_pos_bound a b Hb) as Hr.
  set (q := a / b) in *. set (r := a mod b) in *.
  assert (Hq : q * b - a = - r) by lia.
  assert (Hq1 : (q + 1) * b - a = b - r) by lia.
  destruct (Z.compare_spec (2 * r) b) as [He | Hl | Hg].
  - destruct (Z.even q); [rewrite Hq | rewrite Hq1]; lia.
  - rewrite Hq. lia.
  - rewrite Hq1. lia.
Qed.

Lemma hundredths_of_ratio (c t : Z) :
  0 < c <= t ->
  exists M G,
    52 <= G /\ M = div_half_even (c * 2 ^ G) t /\
    hundredths (round_ratio c t) = div_half_even (100 * M) (2 ^ G).
Proof.
  intros Hc.
  destruct (round_ratio_ulps c t Hc) as (M & G & _ & HM & HG & _ & _ & Hfin & Hu).
  exists M, G. split; [lia |]. split; [exact HM |].
  rewrite (hundredths_ulps _ Hfin), Hu.
  replace (2 ^ 1074) with (2 ^ G * 2 ^ (1074 - G))
    by (rewrite <- Z.pow_add_r by lia; f_equal; lia).
  rewrite Z.mul_assoc. apply div_half_even_scale; apply Z.pow_pos_nonneg; lia.
Qed.

(** The number of hundredths kept of [c / t] is an integer nearest to
    [100 * c / t]. *)
Lemma hundredths_nearest (c t : Z) :
  0 <= c <= t -> 0 < t ->
  let k := hundredths (round_ratio c t) in
  (k - 1) * t < 100 * c < (k + 1) * t /\
  (100 * t < 2 ^ 52 -> 2 * Z.abs (k * t - 100 * c) <= t).
Proof.
  intros Hc Ht k. subst k.
  destruct (Z.eq_dec c 0) as [-> | Hne].
  - change (hundredths (round_ratio 0 t)) with 0. split; [lia |]. intros _. lia.
  - destruct (hundredths_of_ratio c t ltac:(lia)) as (M & G & HG & HM & ->).
    set (P := 2 ^ G).
    assert (HP : 2 ^ 52 <= P) by (apply Z.pow_le_mono_r; lia).
    assert (H52 : 2 ^ 52 = 4503599627370496) by reflexivity.
    pose proof (div_half_even_near (c * P) t Ht) as HnM. fold P in HM. rewrite <- HM in HnM.
    pose proof (div_half_even_near (100 * M) P ltac:(lia)) as Hnk.
    set (k := div_half_even (100 * M) P) in *.
    set (A := k * P - 100 * M) in *. set (B := M * t - c * P) in *.
    assert (Hid : (k * t - 100 * c) * P = t * A + 100 * B) by (subst A B; ring).
    assert (HA : 2 * Z.abs (t * A) <= t * P)
      by (rewrite Z.abs_mul, (Z.abs_eq t) by lia; nia).
    assert (Hbound : 2 * Z.abs (k * t - 100 * c) * P <= t * P + 100 * t).
    { replace (2 * Z.abs (k * t - 100 * c) * P)
        with (2 * Z.abs ((k * t - 100 * c) * P))
        by (rewrite Z.abs_mul, (Z.abs_eq P) by lia; ring).
      rewrite Hid.
      pose proof (Z.abs_triangle (t * A) (100 * B)) as Htri.
      rewrite (Z.abs_mul 100 B), (Z.abs_eq 100) in Htri by lia. lia. }
    split.
    + assert (Z.abs (k * t - 100 * c) < t); [| lia].
      destruct (Z.lt_ge_cases (Z.abs (k * t - 100 * c)) t) as [? | Hge]; [assumption |].
      exfalso. nia.
    + intros Hsmall.
      destruct (Z.le_gt_cases (2 * Z.abs (k * t - 100 * c)) t) as [? | Hgt];
        [assumption |].
      exfalso. nia.
Qed.

Lemma same_eq (x y : float) : same x y = true -> x = y.
Proof.
  destruct x as [s | s | | s m e], y as [s' | s' | | s' m' e']; simpl;
    try discriminate; try reflexivity.
  - intros H. apply Bool.eqb_prop in H. congruence.
  - intros H. apply Bool.eqb_prop in H. congruence.
  - intros H. apply andb_true_iff in H as [H He]. apply andb_true_iff in H as [Hs Hm].
    apply Bool.eqb_prop in Hs. apply Pos.eqb_eq in Hm. apply Z.eqb_eq in He. congruence.
Qed.

(** The binary64 number nearest to [k / 100] is what IEEE division gives
    on [k] and [100], for each of the 101 hundredths. *)
Lemma hundredth_quotients :
  forallb (fun k => same (round_ratio (Z.of_nat k) 100)
                         (SFdiv 53 1024 (binary_normalize 53 1024 (Z.of_nat k) 0 false)
                                (binary_normalize 53 1024 100 0 false)))
          (seq 0 101) = true.
Proof. vm_compute. reflexivity. Qed.

Lemma round_ratio_100_div (k : Z) :
  0 <= k <= 100 ->
  round_ratio k 100
  = SFdiv 53 1024 (binary_normalize 53 1024 k 0 false)
          (binary_normalize 53 1024 100 0 false).
Proof.
  intros Hk. apply same_eq.
  pose proof (proj1 (forallb_forall _ _) hundredth_quotients (Z.to_nat k)) as H.
  cbv beta in H. rewrite Z2Nat.id in H by lia. apply H. apply in_seq. lia.
Qed.

(** C4.  [calculate_adherence] returns 0.0 for a user none of whose plans
    is active.  Otherwise it takes the first active plan of the user and
    counts the daily tasks of that plan dated from [today - days] up to
    and including [today]: it returns exactly 1.0 when there is none, and
    otherwise [round(completed / total, 2)], which is [k / 100] for an
    integer [k] nearest to [100 * completed / total].  For a fixed total
    the value does not decrease when the completed count grows, and it
    lies between 0.0 and 1.0. *)
Theorem calculate_adherence_spec :
  (forall db today user_id days,
      (forall p, p ∈ plans db -> ~ (plan_user_id p = user_id /\ plan_is_active p = true)) ->
      calculate_adherence db today user_id days = S754_zero false) /\
  (forall db today user_id days i plan total completed,
      plans db !! i = Some plan ->
      plan_user_id plan = user_id -> plan_is_active plan = true ->
      (forall j p, plans db !! j = Some p -> (j < i)%nat ->
                   ~ (plan_user_id p = user_id /\ plan_is_active p = true)) ->
      total
      = length (filter (fun t => task_plan_id t = plan_id plan /\
                                 today - days <= task_date t /\ task_date t <= today)
                       (daily_tasks db)) ->
      completed
      = length (filter (fun t => (task_plan_id t = plan_id plan /\
                                  today - days <= task_date t /\ task_date t <= today) /\
                                 status t = COMPLETED)
                       (daily_tasks db)) ->
      (completed <= total)%nat /\
      calculate_adherence db today user_id days = adherence_of_counts completed total /\
      (total = 0%nat ->
       calculate_adherence db today user_id days
       = S754_finite false 4503599627370496 (-52)) /\
      ((0 < total)%nat ->
       calculate_adherence db today user_id days
       = round (int_truediv (N.of_nat completed) (Pos.of_nat total)) 2 /\
       exists k,
         0 <= k <= 100 /\
         (k - 1) * Z.of_nat total < 100 * Z.of_nat completed
           < (k + 1) * Z.of_nat total /\
         (100 * Z.of_nat total < 2 ^ 52 ->
          2 * Z.abs (k * Z.of_nat total - 100 * Z.of_nat completed) <= Z.of_nat total) /\
         calculate_adherence db today user_id days
         = SFdiv 53 1024 (binary_normalize 53 1024 k 0 false)
                 (binary_normalize 53 1024 100 0 false))) /\
  (forall c1 c2 total : nat,
      (c1 <= c2)%nat -> (c2 <= total)%nat ->
      SFleb (adherence_of_counts c1 total) (adherence_of_counts c2 total) = true /\
      SFleb (S754_zero false) (adherence_of_counts c1 total) = true /\
      SFleb (adherence_of_counts c2 total) (S754_finite false 4503599627370496 (-52))
      = true).
Proof.
  split; [| split].
  - intros db today user_id days Hnone. unfold calculate_adherence.
    assert (Hf : first (active_plan_of user_id) (plans db) = None).
    { unfold first. apply list_find_None. apply Forall_forall. exact Hnone. }
    rewrite Hf. reflexivity.
  - intros db today user_id days i plan total completed Hi Hu Ha Hfirst Htotal Hcompleted.
    assert (Hf : first (active_plan_of user_id) (plans db) = Some (i, plan)).
    { unfold first. apply list_find_Some.
      split; [exact Hi |]. split; [split; assumption | exact Hfirst]. }
    assert (Hle : (completed <= total)%nat).
    { subst completed total.
      apply (length_filter_and
               (fun t => task_plan_id t = plan_id plan /\
                         today - days <= task_date t /\ task_date t <= today)
               (fun t => status t = COMPLETED)). }
    assert (Hcalc : calculate_adherence db today user_id days
                    = adherence_of_counts completed total).
    { unfold calculate_adherence. rewrite Hf. subst completed total.
      f_equal; f_equal; apply list_filter_iff; intros t;
        unfold completed_in_window, in_window; tauto. }
    split; [exact Hle |]. split; [exact Hcalc |]. split.
    + intros H0. rewrite Hcalc, H0. reflexivity.
    + intros Hpos. rewrite Hcalc.
      split; [apply adherence_of_counts_pos; exact Hpos |].
      destruct (adherence_of_counts_hundredths completed total Hle Hpos)
        as (k & Hk & Ek & ->).
      exists k. split; [exact Hk |].
      destruct (hundredths_nearest (Z.of_nat completed) (Z.of_nat total)
                  ltac:(lia) ltac:(lia)) as [Hbr Htight].
      rewrite <- Ek in Hbr, Htight.
      split; [exact Hbr |]. split; [exact Htight |].
      apply round_ratio_100_div. exact Hk.
  - intros c1 c2 total H12 H2t.
    split; [apply adherence_of_counts_mono; assumption |].
    split; apply adherence_of_counts_unit; lia.
Qed.

Lemma calculate_adherence_spec_witness :
  calculate_adherence empty_db 10 7 7 = S754_zero false /\
  calculate_adherence Samples.db_last_week 10 7 7
  = S754_finite false 4503599627370496 (-52) /\
  calculate_adherence Samples.db_window 10 7 7
  = S754_finite false 5944751508129055 (-54) /\
  SFleb (adherence_of_counts 1 3) (adherence_of_counts 2 3) = true.
Proof.
  destruct calculate_adherence_spec as (Hnone & Hplan & Hmono).
  assert (Hfirst : forall j p,
             [Samples.last_week_plan] !! j = Some p -> (j < 0)%nat ->
             ~ (plan_user_id p = 7 /\ plan_is_active p = true))
    by (intros j p _ Hj; lia).
  split; [apply Hnone; intros p Hp; inversion Hp |].
  split; [| split].
  - destruct (Hplan Samples.db_last_week 10 7 7 0%nat Samples.last_week_plan 0%nat 0%nat
                eq_refl eq_refl eq_refl Hfirst eq_refl eq_refl) as (_ & _ & Hzero & _).
    apply Hzero. reflexivity.
  - destruct (Hplan Samples.db_window 10 7 7 0%nat Samples.last_week_plan 3%nat 1%nat
                eq_refl eq_refl eq_refl Hfirst eq_refl eq_refl) as (_ & _ & _ & Hpos).
    destruct (Hpos ltac:(lia)) as (_ & k & Hk & _ & Htight & ->).
    assert (k = 33) as -> by (specialize (Htight eq_refl); lia).
    vm_compute. reflexivity.
  - destruct (Hmono 1%nat 2%nat 3%nat) as (Hle & _); [lia | lia |].
    exact Hle.
Defined.

(** C6.  The status is a function of the adherence value and the number
    of check-ins of the trailing three days: at_risk when there is no
    recent check-in, whatever the adherence; otherwise at_risk below 0.3,
    recovering below 0.6 and active from there on; it is always one of
    the three. *)
Theorem get_user_status_total :
  (forall (a : float) (n : nat),
      status_of a n
      = (if Nat.eqb n 0 then "at_risk"
         else if ltb a f0_3 then "at_risk"
         else if ltb a f0_6 then "recovering"
         else "active")%string /\
      In (status_of a n) ["active"; "at_risk"; "recovering"]%string) /\
  (forall db today user_id,
      get_user_status db today user_id
      = status_of (calculate_adherence db today user_id 7)
                  (length (filter (fun c => checkin_user_id c = user_id /\
                                            today - 3 <= checkin_date c)
                                  (checkins db)))).
Proof.
  split.
  - intros a n. unfold status_of.
    destruct (ltb a f0_3), (Nat.eqb n 0), (ltb a f0_6); simpl; tauto.
  - intros db today user_id. reflexivity.
Qed.

End Scoring.

Section Adaptation.

Import AdaptationPolicy.

(** C5.  [determine_adjustment] is defined on every triple of floats and
    follows the rule table in priority order: reduce_scope exactly when
    adherence < 0.3; otherwise repeat_concepts exactly when
    retention < 0.5; otherwise increase_challenge exactly when both
    knowledge > 0.8 and adherence > 0.8; keep in every remaining case.
    The four sample points of the specification evaluate as it says. *)
Theorem determine_adjustment_rule_table :
  (forall a k r : float,
      let d := determine_adjustment a k r in
      (d = "reduce_scope"%string <-> ltb a f0_3 = true) /\
      (d = "repeat_concepts"%string <-> ltb a f0_3 = false /\ ltb r f0_5 = true) /\
      (d = "increase_challenge"%string <->
       ltb a f0_3 = false /\ ltb r f0_5 = false /\
       ltb f0_8 k = true /\ ltb f0_8 a = true) /\
      (d = "keep"%string <->
       ltb a f0_3 = false /\ ltb r f0_5 = false /\
       (ltb f0_8 k = false \/ ltb f0_8 a = false))) /\
  determine_adjustment (round_ratio 2 10) (round_ratio 5 10) (round_ratio 3 10)
  = "reduce_scope"%string /\
  determine_adjustment (round_ratio 9 10) (round_ratio 85 100) (round_ratio 8 10)
  = "increase_challenge"%string /\
  determine_adjustment (round_ratio 7 10) (round_ratio 6 10) (round_ratio 6 10)
  = "keep"%string /\
  determine_adjustment (round_ratio 7 10) (round_ratio 5 10) (round_ratio 3 10)
  = "repeat_concepts"%string.
Proof.
  split; [| repeat split; vm_compute; reflexivity].
  intros a k r d. subst d. unfold determine_adjustment.
  unfold LOW_ADHERENCE_THRESHOLD, LOW_RETENTION_THRESHOLD.
  destruct (ltb a f0_3), (ltb r f0_5), (ltb f0_8 k), (ltb f0_8 a); simpl;
    intuition congruence.
Qed.

End Adaptation.

(** ** Knowledge score and memory rules *)

Section Knowledge.

Import ScoringService.

(** C2.  On two completed quizzes of one user, scored 1.0 and unscored,
    [calculate_knowledge] returns 0.5: the unscored quiz passes the
    filter, adds 0 to the sum and 1 to the count.  The mean over the
    scored quizzes, which the specification asks for, is 1.0. *)
Theorem calculate_knowledge_counts_unscored :
  calculate_knowledge Samples.db_null_score 7 = f0_5 /\
  calculate_knowledge_spec Samples.db_null_score 7 = f1_0.
Proof. split; vm_compute; reflexivity. Qed.

End Knowledge.

Section MemoryRules.

Import CheckinService.


Lemma ltb_leb (x y : float) : ltb x y = true -> leb x y = true.
Proof.
  unfold ltb, leb, SFltb, SFleb.
  destruct (SFcompare x y) as [[] |]; congruence.
Qed.

Lemma reinforced_le_one (c : float) : leb (reinforced c) f1_0 = true.
Proof.
  unfold reinforced, Float64.min.
  destruct (ltb (add c f0_1) f1_0) eqn:Hlt; [apply ltb_leb; exact Hlt | reflexivity].
Qed.

Lemma reinforced_one : reinforced f1_0 = f1_0.
Proof. vm_compute. reflexivity. Qed.

Lemma reinforced_from_half (n : nat) :
  (6 <= n)%nat -> Nat.iter n reinforced f0_5 = f1_0.
Proof.
  intros Hn. replace n with ((n - 6) + 6)%nat by lia.
  rewrite Nat.iter_add.
  replace (Nat.iter 6 reinforced f0_5) with f1_0 by (vm_compute; reflexivity).
  induction (n - 6)%nat as [| k IH]; [reflexivity |].
  simpl. rewrite IH. apply reinforced_one.
Qed.

Lemma add_or_update_bounded (rules : list MemoryRule) (u : Z) (rt rv : string) :
  Forall at_most_one rules -> Forall at_most_one (add_or_update rules u rt rv).
Proof.
  intros Hall. unfold add_or_update, first.
  destruct (list_find (rule_of u rt) rules) as [[i r] |].
  - apply Forall_insert; [exact Hall |]. apply reinforced_le_one.
  - apply Forall_app. split; [exact Hall |].
    apply Forall_singleton. reflexivity.
Qed.

(** C7, as the code has it.  When the rule the lookup by (user, type)
    finds is active, reinforcement sets its confidence to
    [min(1.0, confidence + 0.1)] in binary64 arithmetic and changes
    nothing else, neither in that rule nor in the others; when no rule
    has that key, an active rule with confidence 0.5 and the supplied
    value is appended.  A reinforced confidence is at most 1.0, and a
    store bounded by 1.0 stays bounded.  From 0.5, five reinforcements
    reach 0.9999999999999999, and six or more reach exactly 1.0. *)
Theorem add_or_update_rule_spec :
  (forall rules u rt rv i r,
      first (rule_of u rt) rules = Some (i, r) -> rule_is_active r = true ->
      let rules' := add_or_update rules u rt rv in
      length rules' = length rules /\
      rules' !! i = Some {| rule_id := rule_id r; rule_user_id := u;
                            rule_type := rt; rule_value := rule_value r;
                            confidence := Float64.min f1_0 (add (confidence r) f0_1);
                            rule_is_active := true |} /\
      (forall j, j <> i -> rules' !! j = rules !! j)) /\
  (forall rules u rt rv,
      Forall (fun r => ~ rule_of u rt r) rules ->
      add_or_update rules u rt rv
      = rules ++ [ {| rule_id := next_id (map rule_id rules); rule_user_id := u;
                      rule_type := rt; rule_value := rv; confidence := f0_5;
                      rule_is_active := true |} ]) /\
  (forall c, leb (reinforced c) f1_0 = true) /\
  (forall rules u rt rv,
      Forall at_most_one rules -> Forall at_most_one (add_or_update rules u rt rv)) /\
  Nat.iter 5 reinforced f0_5 = S754_finite false 9007199254740991 (-53) /\
  (forall n, (6 <= n)%nat -> Nat.iter n reinforced f0_5 = f1_0).
Proof.
  split; [| split; [| split; [| split; [| split]]]].
  - intros rules u rt rv i r Hfind Hact rules'. subst rules'.
    unfold add_or_update. rewrite Hfind.
    unfold first in Hfind. apply list_find_Some in Hfind as (Hi & [Hu Ht] & _).
    split; [apply length_insert |]. split.
    + rewrite list_lookup_insert_eq by (eapply lookup_lt_Some; exact Hi).
      unfold set_confidence, reinforced. rewrite Hu, Ht, Hact. reflexivity.
    + intros j Hj. apply list_lookup_insert_ne. congruence.
  - intros rules u rt rv Hnone. unfold add_or_update, first.
    rewrite (proj2 (list_find_None (rule_of u rt) rules) Hnone). reflexivity.
  - exact reinforced_le_one.
  - exact add_or_update_bounded.
  - vm_compute. reflexivity.
  - exact reinforced_from_half.
Qed.

Lemma add_or_update_rule_spec_witness :
  add_or_update [Samples.active_rule] 7 "task_skip" "ignored" !! 0%nat
  = Some {| rule_id := 1; rule_user_id := 7; rule_type := "task_skip";
            rule_value := "User skipped learning session";
            confidence := S754_finite false 5404319552844595 (-53);
            rule_is_active := true |} /\
  Forall at_most_one (add_or_update [Samples.active_rule] 7 "task_skip" "ignored") /\
  length (add_or_update [Samples.inactive_rule; Samples.inactive_rule] 7 "x" "y") = 3%nat /\
  leb (reinforced f0_8) f1_0 = true /\
  Nat.iter 7 reinforced f0_5 = f1_0.
Proof.
  destruct add_or_update_rule_spec as (Hold & Hnew & Hle & Hinv & _ & Hsix).
  split; [| split; [| split; [| split]]].
  - destruct (Hold [Samples.active_rule] 7 "task_skip" "ignored" 0%nat
                Samples.active_rule)%string as (_ & Hi & _);
      [reflexivity | reflexivity | exact Hi].
  - apply Hinv. repeat constructor.
  - rewrite (Hnew [Samples.inactive_rule; Samples.inactive_rule] 7 "x" "y")%string.
    + reflexivity.
    + repeat constructor; intros [_ H]; discriminate H.
  - apply Hle.
  - apply Hsix. lia.
Defined.

(** Five reinforcements of a rule created at 0.5 do not reach 1.0. *)
Lemma five_reinforcements_below_one :
  let skip rules := add_or_update rules 7 "task_skip" "User skipped learning session" in
  let rules5 := Nat.iter 5 skip (skip []) in
  map confidence rules5 = [S754_finite false 9007199254740991 (-53)] /\
  map confidence rules5 <> [f1_0] /\
  forallb (fun r => eqb (confidence r) f1_0) rules5 = false.
Proof.
  vm_compute. split; [reflexivity |].
  split; [intros H; discriminate H | reflexivity].
Qed.

End MemoryRules.

(** ** Weekly plans *)

Section Planning.

Import PlanService.


Lemma first_app_new {A} (P : A -> Prop) `{!forall x, Decision (P x)} (l : list A) (x : A) :
  first P l = None -> P x -> first P (l ++ [x]) = Some (length l, x).
Proof.
  intros Hnone Hx. unfold first in *.
  apply list_find_app_Some. right.
  split; [lia |]. split; [exact Hnone |].
  rewrite Nat.sub_diag. apply list_find_Some.
  split; [reflexivity |]. split; [exact Hx |]. intros j y _ Hj. lia.
Qed.

Lemma generate_without_commitment (db : Db) (today : Z) (llm : option PlanJson)
    (user_id : Z) (force : bool) :
  first (active_commitment_of user_id) (commitments db) = None ->
  generate_weekly_plan db today llm user_id force = (Returned no_commitment_decision, db).
Proof. intros Hc. unfold generate_weekly_plan. rewrite Hc. reflexivity. Qed.

Lemma generate_existing (db : Db) (today : Z) (llm : option PlanJson) (user_id : Z)
    (j i : nat) (commitment : Commitment) (plan : Plan) :
  first (active_commitment_of user_id) (commitments db) = Some (j, commitment) ->
  first (active_plan_of_week user_id (_get_week_start today)) (plans db)
  = Some (i, plan) ->
  generate_weekly_plan db today llm user_id false
  = (_plan_to_decision plan commitment, db).
Proof. intros Hc Hp. unfold generate_weekly_plan. rewrite Hc, Hp. reflexivity. Qed.

Lemma generate_first_of_week (db : Db) (today : Z) (llm : option PlanJson)
    (user_id : Z) (force : bool) (j : nat) (commitment : Commitment) :
  first (active_commitment_of user_id) (commitments db) = Some (j, commitment) ->
  first (active_plan_of_week user_id (_get_week_start today)) (plans db) = None ->
  let plan := first_plan_of_week db today llm user_id commitment in
  generate_weekly_plan db today llm user_id force
  = (_plan_to_decision plan commitment,
     _create_daily_tasks (with_plans db (plans db ++ [plan])) plan
                         (default [] (pj_tasks (plan_json plan)))).
Proof.
  intros Hc Hp. unfold generate_weekly_plan. rewrite Hc, Hp.
  destruct force; reflexivity.
Qed.

(** What the constructor call of [_plan_to_decision] gives: the decision
    with the plan's version and focus in its reason and the first three
    tasks of the payload, when each of the three has a timebox within
    10..120 and one of the four types; [ValidationError] otherwise. *)
Lemma plan_to_decision_cases (plan : Plan) (commitment : Commitment) :
  let listed :=
    map (fun t => {| nt_task := default ""%string (td_task t);
                     nt_timebox_min := default 45 (td_timebox_min t);
                     nt_type := default "reading"%string (td_type t) |})
        (take 3 (default [] (pj_tasks (plan_json plan)))) in
  _plan_to_decision plan commitment
  = if forallb (fun t => (10 <=? nt_timebox_min t) && (nt_timebox_min t <=? 120)
                         && existsb (String.eqb (nt_type t))
                                    ["reading"; "coding"; "review"; "quiz"]%string)
               listed
    then Returned
           {| reason := ("Week " +:+ str_of_Z (version plan) +:+ ": "
                         +:+ default "Learning week" (pj_week_focus (plan_json plan)))%string;
              advice := None;
              signals := {| adherence := S754_finite false 4503599627370496 (-52);
                            knowledge := S754_zero false;
                            retention := S754_zero false;
                            signals_status := "active" |};
              action := {| plan_adjustment := "keep"; risk_mitigation := [] |};
              next_tasks := listed;
              resources_used := [];
              quality_score := S754_finite false 4503599627370496 (-52);
              quality_flags := [] |}
    else Raised "ValidationError".
Proof.
  intros listed. unfold _plan_to_decision, validated, valid_decision.
  cbn [signals action next_tasks resources_used quality_score forallb].
  change (valid_signals _) with true. change (valid_action _) with true.
  change (unit_interval f1_0) with true.
  rewrite !andb_true_l, !andb_true_r. reflexivity.
Qed.




(** Without an active plan for the current week, the new plan is appended
    and every stored plan is left as it was. *)
Lemma generate_weekly_plan_new_week (db : Db) (today : Z) (llm : option PlanJson)
    (user_id : Z) (force : bool) (j : nat) (commitment : Commitment) :
  first (active_commitment_of user_id) (commitments db) = Some (j, commitment) ->
  first (active_plan_of_week user_id (_get_week_start today)) (plans db) = None ->
  plans (snd (generate_weekly_plan db today llm user_id force))
  = plans db ++ [ {| plan_id := next_id (map plan_id (plans db));
                     plan_user_id := user_id;
                     week_start := _get_week_start today;
                     version := 1;
                     plan_json := default (_default_plan commitment) llm;
                     plan_is_active := true |} ].
Proof.
  intros Hc Hp.
  rewrite (generate_first_of_week db today llm user_id force j commitment Hc Hp).
  reflexivity.
Qed.

(** Forced regeneration within the week deactivates the plan it found and
    appends its successor, numbered one higher. *)
Lemma generate_weekly_plan_force_same_week (db : Db) (today : Z) (llm : option PlanJson)
    (user_id : Z) (j i : nat) (commitment : Commitment) (plan : Plan) :
  first (active_commitment_of user_id) (commitments db) = Some (j, commitment) ->
  first (active_plan_of_week user_id (_get_week_start today)) (plans db) = Some (i, plan) ->
  plans (snd (generate_weekly_plan db today llm user_id true))
  = <[i := set_plan_inactive plan]> (plans db)
    ++ [ {| plan_id := next_id (map plan_id (<[i := set_plan_inactive plan]> (plans db)));
            plan_user_id := user_id;
            week_start := _get_week_start today;
            version := version plan + 1;
            plan_json := default (_default_plan commitment) llm;
            plan_is_active := true |} ].
Proof.
  intros Hc Hp. unfold generate_weekly_plan. rewrite Hc, Hp. reflexivity.
Qed.

(** C1, at the failing input.  A user whose plan of last week is still
    active asks for a plan in the following week: the old plan is not
    deactivated, and two plans of that user are active afterwards. *)
Theorem generate_weekly_plan_keeps_stale_plan_active :
  let db' := snd (generate_weekly_plan Samples.db_last_week 17 None 7 false) in
  map (fun p => (week_start p, version p, plan_is_active p)) (plans db')
  = [(8, 1, true); (15, 1, true)] /\
  length (filter (ScoringService.active_plan_of 7) (plans db')) = 2%nat.
Proof. vm_compute. split; reflexivity. Qed.

End Planning.

(** ** Daily tasks, task completion and missing rows *)

Section DailyTasks.

Import PlanService.

Lemma daily_task_of_materialized (plan : Plan) (id : Z) (td : TaskData) :
  materialized plan td (daily_task_of plan id td).
Proof. unfold materialized, daily_task_of. simpl. repeat split; lia. Qed.

Lemma add_daily_tasks_rows (plan : Plan) (tasks : list TaskData) (rows : list DailyTask) :
  exists new_rows,
    foldl (add_daily_task plan) rows tasks = rows ++ new_rows /\
    Forall2 (materialized plan) tasks new_rows.
Proof.
  revert rows. induction tasks as [| td tasks IH]; intros rows.
  - exists []. split; [symmetry; apply app_nil_r | constructor].
  - simpl. destruct (IH (add_daily_task plan rows td)) as (more & Heq & Hall).
    exists (daily_task_of plan (next_id (map task_id rows)) td :: more).
    split.
    + rewrite Heq. unfold add_daily_task. rewrite <- app_assoc. reflexivity.
    + constructor; [apply daily_task_of_materialized | exact Hall].
Qed.

Lemma TaskType_of_string_unknown (s : string) :
  s <> "reading"%string -> s <> "coding"%string ->
  s <> "review"%string -> s <> "quiz"%string ->
  TaskType_of_string s = None.
Proof.
  intros H1 H2 H3 H4. unfold TaskType_of_string.
  repeat match goal with
         | |- context [String.eqb s ?c] =>
             destruct (String.eqb_spec s c); [congruence |]
         end.
  reflexivity.
Qed.

Lemma materialized_in_week (plan : Plan) (tasks : list TaskData) (rows : list DailyTask) :
  Forall2 (materialized plan) tasks rows ->
  Forall (fun row => week_start plan <= task_date row /\ status row = PENDING) rows /\
  (Forall day_in_week tasks ->
   Forall (fun row => task_date row <= week_start plan + 6) rows).
Proof.
  induction 1 as [| td row tasks rows Hm _ [IH1 IH2]].
  - split; constructor.
  - destruct Hm as (_ & _ & _ & Hs & Hlo & Hhi). split.
    + constructor; [split; assumption | exact IH1].
    + intros Hdays. apply Forall_cons in Hdays as [Hd Hrest].
      constructor; [apply Hhi; exact Hd | apply IH2; exact Hrest].
Qed.

(** C9, as the code has it.  Every [DailyTask] made from a task list has
    the plan's id, date [week_start + max(0, day - 1)] with [day]
    defaulting to 1, the task type named by the entry or [reading] when
    the name is missing or unknown, and status [pending]; its date is
    never before the week start, and is at most [week_start + 6] when the
    entry's day is at most 7.  A plan request that creates a plan appends
    exactly these rows for the Monday on or before today, and the
    fallback plan keeps all of them inside the week. *)
Theorem create_daily_tasks_spec :
  (forall db plan tasks,
      exists rows,
        daily_tasks (_create_daily_tasks db plan tasks) = daily_tasks db ++ rows /\
        Forall2 (materialized plan) tasks rows) /\
  (forall s,
      s <> "reading"%string -> s <> "coding"%string ->
      s <> "review"%string -> s <> "quiz"%string ->
      TaskType_of_string s = None) /\
  (forall db today llm user_id force j commitment,
      first (active_commitment_of user_id) (commitments db) = Some (j, commitment) ->
      first (active_plan_of_week user_id (_get_week_start today)) (plans db) = None ->
      let ws := _get_week_start today in
      let tasks := default [] (pj_tasks (default (_default_plan commitment) llm)) in
      exists rows,
        daily_tasks (snd (generate_weekly_plan db today llm user_id force))
        = daily_tasks db ++ rows /\
        length rows = length tasks /\
        Forall (fun row => ws <= task_date row /\ status row = PENDING) rows /\
        (Forall day_in_week tasks -> Forall (fun row => task_date row <= ws + 6) rows)) /\
  (forall commitment,
      Forall day_in_week (default [] (pj_tasks (_default_plan commitment)))).
Proof.
  split; [| split; [| split]].
  - intros db plan tasks. apply add_daily_tasks_rows.
  - exact TaskType_of_string_unknown.
  - intros db today llm user_id force j commitment Hc Hp ws tasks.
    rewrite (generate_first_of_week db today llm user_id force j commitment Hc Hp).
    cbn [snd].
    destruct (add_daily_tasks_rows
                (first_plan_of_week db today llm user_id commitment) tasks
                (daily_tasks db)) as (rows & Heq & Hall).
    exists rows. split; [exact Heq |].
    split; [symmetry; eapply Forall2_length; exact Hall |].
    apply (materialized_in_week _ _ _ Hall).
  - intros commitment. unfold day_in_week. simpl. repeat constructor; simpl; lia.
Qed.

Lemma create_daily_tasks_spec_witness :
  TaskType_of_string "video" = None /\
  exists rows,
    daily_tasks (snd (generate_weekly_plan Samples.db_committed 10 None 7 false))
    = rows /\
    Forall (fun row => task_date row <= 8 + 6) rows.
Proof.
  destruct create_daily_tasks_spec as (_ & Hunknown & Hgen & Hdefault).
  split.
  - apply Hunknown; intros H; discriminate H.
  - destruct (Hgen Samples.db_committed 10 None 7 false 0%nat Samples.learner
                eq_refl eq_refl) as (rows & Heq & _ & _ & Hin).
    exists rows. split; [exact Heq |].
    apply Hin. apply Hdefault.
Defined.

(** A generated plan that schedules a task on day 9 yields a daily task
    dated after [week_start + 6]. *)
Lemma daily_task_beyond_week :
  let db' := snd (generate_weekly_plan Samples.db_committed 10
                    (Some Samples.plan_day_9) 7 false) in
  _get_week_start 10 = 8 /\
  map task_date (daily_tasks db') = [16] /\
  ~ Forall (fun row => 8 <= task_date row <= 8 + 6) (daily_tasks db').
Proof.
  vm_compute. split; [reflexivity |]. split; [reflexivity |].
  intros H. inversion H as [| ? ? [_ Hle] _]. apply Hle. reflexivity.
Qed.

End DailyTasks.

Section CompleteTask.

Import Routes.

Lemma first_insert_same {A} (P : A -> Prop) `{!forall x, Decision (P x)}
    (l : list A) (i : nat) (x y : A) :
  first P l = Some (i, x) -> P y -> first P (<[i := y]> l) = Some (i, y).
Proof.
  intros Hfind Hy. unfold first in *.
  apply list_find_Some in Hfind as (Hi & _ & Hleast).
  apply list_find_insert_Some. right. left.
  split; [reflexivity |]. split; [reflexivity |].
  split; [eapply lookup_lt_Some; exact Hi |].
  split; [exact Hy | exact Hleast].
Qed.

Lemma complete_task_found (db : Db) (now tid u : Z) (i : nat) (t : DailyTask) :
  first (has_id tid) (daily_tasks db) = Some (i, t) ->
  complete_task db now tid u
  = (Ok {| ack_message := "Task completed"; ack_task_id := tid |},
     with_daily_tasks db (<[i := set_completed t now]> (daily_tasks db))).
Proof. intros Hfind. unfold complete_task. rewrite Hfind. reflexivity. Qed.

(** C10.  [complete_task] does not read the caller's id: two callers get
    the same acknowledgement and leave the same state.  For an existing
    task id, whoever calls and whatever its status was, the task becomes
    [completed] with [completed_at] set to the current time, and nothing
    else changes; calling again succeeds and overwrites [completed_at]
    with the time of the later call. *)
Theorem complete_task_ignores_caller :
  (forall db now tid u1 u2,
      complete_task db now tid u1 = complete_task db now tid u2) /\
  (forall db now tid u i t,
      first (has_id tid) (daily_tasks db) = Some (i, t) ->
      let r := complete_task db now tid u in
      fst r = Ok {| ack_message := "Task completed"; ack_task_id := tid |} /\
      daily_tasks (snd r) !! i
      = Some {| task_id := tid; task_plan_id := task_plan_id t;
                task_date := task_date t; task := task t;
                timebox_min := timebox_min t; task_type := task_type t;
                status := COMPLETED; started_at := started_at t;
                completed_at := Some now |} /\
      (forall j, j <> i -> daily_tasks (snd r) !! j = daily_tasks db !! j) /\
      length (daily_tasks (snd r)) = length (daily_tasks db) /\
      plans (snd r) = plans db /\ commitments (snd r) = commitments db /\
      checkins (snd r) = checkins db /\ quizzes (snd r) = quizzes db /\
      memory_rules (snd r) = memory_rules db) /\
  (forall db now1 now2 tid u1 u2 i t,
      first (has_id tid) (daily_tasks db) = Some (i, t) ->
      let r1 := complete_task db now1 tid u1 in
      let r2 := complete_task (snd r1) now2 tid u2 in
      fst r2 = Ok {| ack_message := "Task completed"; ack_task_id := tid |} /\
      exists t2,
        daily_tasks (snd r2) !! i = Some t2 /\
        status t2 = COMPLETED /\ completed_at t2 = Some now2).
Proof.
  split; [| split].
  - intros db now tid u1 u2. reflexivity.
  - intros db now tid u i t Hfind r. subst r.
    rewrite (complete_task_found db now tid u i t Hfind). cbn [fst snd].
    pose proof Hfind as Hf. unfold first in Hf.
    apply list_find_Some in Hf as (Hi & Hid & _). unfold has_id in Hid.
    repeat split.
    + cbn [daily_tasks with_daily_tasks].
      rewrite list_lookup_insert_eq by (eapply lookup_lt_Some; exact Hi).
      unfold set_completed. rewrite Hid. reflexivity.
    + intros j Hj. cbn [daily_tasks with_daily_tasks].
      apply list_lookup_insert_ne. congruence.
    + cbn [daily_tasks with_daily_tasks]. apply length_insert.
  - intros db now1 now2 tid u1 u2 i t Hfind r1 r2. subst r1 r2.
    rewrite (complete_task_found db now1 tid u1 i t Hfind). cbn [snd].
    assert (Hfind' :
      first (has_id tid)
            (daily_tasks (with_daily_tasks db
                            (<[i := set_completed t now1]> (daily_tasks db))))
      = Some (i, set_completed t now1)).
    { cbn [daily_tasks with_daily_tasks].
      apply (first_insert_same _ _ _ t); [exact Hfind |].
      unfold first in Hfind. apply list_find_Some in Hfind as (_ & Hid & _).
      exact Hid. }
    rewrite (complete_task_found _ now2 tid u2 i _ Hfind'). cbn [fst snd].
    split; [reflexivity |].
    exists (set_completed (set_completed t now1) now2).
    split; [| split; reflexivity].
    cbn [daily_tasks with_daily_tasks].
    apply list_lookup_insert_eq. rewrite length_insert.
    unfold first in Hfind. apply list_find_Some in Hfind as (Hi & _ & _).
    eapply lookup_lt_Some. exact Hi.
Qed.

Lemma complete_task_ignores_caller_witness :
  (let r := complete_task Samples.db_tasks 99 2 7 in
   fst r = Ok {| ack_message := "Task completed"; ack_task_id := 2 |}) /\
  (let r1 := complete_task Samples.db_tasks 99 2 7 in
   let r2 := complete_task (snd r1) 120 2 8 in
   exists t2,
     daily_tasks (snd r2) !! 1%nat = Some t2 /\
     status t2 = COMPLETED /\ completed_at t2 = Some 120).
Proof.
  destruct complete_task_ignores_caller as (_ & Honce & Htwice).
  split.
  - destruct (Honce Samples.db_tasks 99 2 7 1%nat
                {| task_id := 2; task_plan_id := 2; task_date := 9;
                   task := "Borrow checker drill"; timebox_min := 20;
                   task_type := CODING; status := SKIPPED;
                   started_at := None; completed_at := None |} eq_refl)
      as (Hack & _).
    exact Hack.
  - destruct (Htwice Samples.db_tasks 99 120 2 7 8 1%nat
                {| task_id := 2; task_plan_id := 2; task_date := 9;
                   task := "Borrow checker drill"; timebox_min := 20;
                   task_type := CODING; status := SKIPPED;
                   started_at := None; completed_at := None |} eq_refl)
      as (_ & Hex).
    exact Hex.
Defined.

End CompleteTask.

Section NotFound.

Import PlanService CheckinService Routes.

(** C3, as the code has it.  A command that finds no active commitment
    ([daily-checkin], [request-weekly-plan]) returns the fixed
    no-commitment decision, whose adherence, knowledge and retention are
    0.0, whose status is at_risk and whose only task is "Complete intake
    assessment", and leaves the database untouched; [get-today-tasks]
    returns the empty list when the user has no active plan; and
    [complete-task] on an id no task has raises the HTTP error 404
    "Task not found", again without touching the database. *)
Theorem not_found_handling :
  (forall db today llm rag user_id yesterday today_plan blockers,
      first (active_commitment_of user_id) (commitments db) = None ->
      process_checkin db today llm rag user_id yesterday today_plan blockers
      = (Returned no_commitment_decision, db)) /\
  (signals no_commitment_decision
   = {| adherence := f0_0; knowledge := f0_0; retention := f0_0;
        signals_status := "at_risk" |} /\
   next_tasks no_commitment_decision
   = [ {| nt_task := "Complete intake assessment"; nt_timebox_min := 10;
          nt_type := "review" |} ] /\
   quality_flags no_commitment_decision = ["no_commitment"%string]) /\
  (forall db today llm user_id force,
      first (active_commitment_of user_id) (commitments db) = None ->
      generate_weekly_plan db today llm user_id force
      = (Returned no_commitment_decision, db)) /\
  (forall engine db today user_id,
      first (ScoringService.active_plan_of user_id) (plans db) = None ->
      get_today_tasks engine db today user_id = []) /\
  (forall db now tid user_id,
      first (has_id tid) (daily_tasks db) = None ->
      complete_task db now tid user_id = (HTTPException 404 "Task not found", db)).
Proof.
  split; [| split; [| split; [| split]]].
  - intros db today llm rag user_id yesterday today_plan blockers Hc.
    unfold process_checkin. rewrite Hc. reflexivity.
  - repeat split.
  - intros db today llm user_id force Hc.
    unfold generate_weekly_plan. rewrite Hc. reflexivity.
  - intros engine db today user_id Hp. unfold get_today_tasks. rewrite Hp. reflexivity.
  - intros db now tid user_id Ht. unfold complete_task. rewrite Ht. reflexivity.
Qed.

Lemma not_found_handling_witness :
  process_checkin empty_db 10 None [] 7 (Some "read a chapter") None None
  = (Returned no_commitment_decision, empty_db) /\
  generate_weekly_plan empty_db 10 None 7 true
  = (Returned no_commitment_decision, empty_db) /\
  get_today_tasks reverse_order Samples.db_committed 10 7 = [] /\
  complete_task Samples.db_tasks 99 42 7
  = (HTTPException 404 "Task not found", Samples.db_tasks).
Proof.
  destruct not_found_handling as (Hcheckin & _ & Hplan & Htoday & Htask).
  split; [apply Hcheckin; reflexivity |].
  split; [apply Hplan; reflexivity |].
  split; [apply Htoday; reflexivity |].
  apply Htask. reflexivity.
Defined.

(** [complete-task] on an id that no task has does not return an
    acknowledgement: it raises the HTTP error 404. *)
Lemma complete_task_unknown_id_raises :
  fst (complete_task Samples.db_tasks 99 42 7) = HTTPException 404 "Task not found" /\
  forall ack, fst (complete_task Samples.db_tasks 99 42 7) <> Ok ack.
Proof.
  split; [reflexivity |]. intros ack H. vm_compute in H. discriminate H.
Qed.

End NotFound.

(** ** Completing tasks and the scores *)

Section CompletionAndScores.

Import ScoringService PlanService Routes.

Lemma filter_insert_length_eq {A} (P : A -> Prop) `{!forall x, Decision (P x)}
    (l : list A) (i : nat) (x y : A) :
  l !! i = Some x -> (P x <-> P y) ->
  length (filter P (<[i := y]> l)) = length (filter P l).
Proof.
  revert i. induction l as [| z l IH]; intros i Hi Hxy; [discriminate Hi |].
  destruct i as [| i]; simpl in *.
  - injection Hi as ->. rewrite !filter_cons.
    repeat case_decide; simpl; tauto || reflexivity.
  - rewrite !filter_cons. specialize (IH i Hi Hxy).
    case_decide; simpl; lia.
Qed.

Lemma filter_insert_length_le {A} (P : A -> Prop) `{!forall x, Decision (P x)}
    (l : list A) (i : nat) (x y : A) :
  l !! i = Some x -> (P x -> P y) ->
  (length (filter P l) <= length (filter P (<[i := y]> l)))%nat.
Proof.
  revert i. induction l as [| z l IH]; intros i Hi Hxy; [discriminate Hi |].
  destruct i as [| i]; simpl in *.
  - injection Hi as ->. rewrite !filter_cons.
    repeat case_decide; simpl; tauto || lia.
  - rewrite !filter_cons. specialize (IH i Hi Hxy).
    case_decide; simpl; lia.
Qed.

Lemma filter_insert_map {A B} (P : A -> Prop) `{!forall x, Decision (P x)}
    (f : A -> B) (l : list A) (i : nat) (x y : A) :
  l !! i = Some x -> (P x <-> P y) -> f x = f y ->
  map f (filter P (<[i := y]> l)) = map f (filter P l).
Proof.
  revert i. induction l as [| z l IH]; intros i Hi Hxy Hf; [discriminate Hi |].
  destruct i as [| i]; simpl in *.
  - injection Hi as ->. rewrite !filter_cons.
    repeat case_decide; simpl; try tauto; congruence.
  - rewrite !filter_cons. specialize (IH i Hi Hxy Hf).
    case_decide; simpl; congruence.
Qed.

Lemma calculate_adherence_counts (db : Db) (today user_id days : Z) :
  exists c t : nat,
    (c <= t)%nat /\
    (calculate_adherence db today user_id days = f0_0 \/
     calculate_adherence db today user_id days = adherence_of_counts c t).
Proof.
  unfold calculate_adherence.
  destruct (first (active_plan_of user_id) (plans db)) as [[i plan] |].
  - eexists _, _. split; [| right; reflexivity].
    apply (length_filter_and _ (fun t => status t = COMPLETED)).
  - exists 0%nat, 0%nat. split; [lia | left; reflexivity].
Qed.

Lemma calculate_adherence_leb_refl (db : Db) (today user_id days : Z) :
  leb (calculate_adherence db today user_id days)
      (calculate_adherence db today user_id days) = true.
Proof.
  destruct (calculate_adherence_counts db today user_id days)
    as (c & t & Hct & [-> | ->]); [reflexivity |].
  apply adherence_of_counts_mono; lia.
Qed.

(** Completing a task, whoever asks and whatever the task was, never
    lowers the adherence of any user on any day. *)
Theorem complete_task_never_lowers_adherence (db : Db) (now tid u today user_id days : Z) :
  leb (calculate_adherence db today user_id days)
      (calculate_adherence (snd (complete_task db now tid u)) today user_id days) = true.
Proof.
  destruct (first (has_id tid) (daily_tasks db)) as [[i t] |] eqn:Hfind.
  - rewrite (complete_task_found db now tid u i t Hfind). cbn [snd].
    unfold calculate_adherence. cbn [plans daily_tasks with_daily_tasks].
    destruct (first (active_plan_of user_id) (plans db)) as [[k plan] |];
      [| reflexivity].
    unfold first in Hfind. apply list_find_Some in Hfind as (Hi & _ & _).
    rewrite (filter_insert_length_eq (in_window (plan_id plan) (today - days) today)
               _ i t (set_completed t now) Hi)
      by (unfold in_window; simpl; tauto).
    apply adherence_of_counts_mono.
    + apply (filter_insert_length_le _ _ i t (set_completed t now) Hi).
      unfold completed_in_window, in_window. simpl. tauto.
    + rewrite <- (filter_insert_length_eq (in_window (plan_id plan) (today - days) today)
                    _ i t (set_completed t now) Hi)
        by (unfold in_window; simpl; tauto).
      apply (length_filter_and _ (fun t => status t = COMPLETED)).
  - unfold complete_task. rewrite Hfind. cbn [snd].
    apply calculate_adherence_leb_refl.
Qed.

(** Completing a task that is already completed changes no adherence:
    a repeated call is not counted twice. *)
Theorem complete_task_again_keeps_adherence
    (db : Db) (now tid u today user_id days : Z) (i : nat) (t : DailyTask) :
  first (has_id tid) (daily_tasks db) = Some (i, t) ->
  status t = COMPLETED ->
  calculate_adherence (snd (complete_task db now tid u)) today user_id days
  = calculate_adherence db today user_id days.
Proof.
  intros Hfind Hdone.
  rewrite (complete_task_found db now tid u i t Hfind). cbn [snd].
  unfold calculate_adherence. cbn [plans daily_tasks with_daily_tasks].
  destruct (first (active_plan_of user_id) (plans db)) as [[k plan] |];
    [| reflexivity].
  unfold first in Hfind. apply list_find_Some in Hfind as (Hi & _ & _).
  rewrite (filter_insert_length_eq (in_window (plan_id plan) (today - days) today)
             _ i t (set_completed t now) Hi)
    by (unfold in_window; simpl; tauto).
  rewrite (filter_insert_length_eq
             (completed_in_window (plan_id plan) (today - days) today)
             _ i t (set_completed t now) Hi)
    by (unfold completed_in_window, in_window; simpl; rewrite Hdone; tauto).
  reflexivity.
Qed.

Lemma complete_task_again_keeps_adherence_witness :
  let db1 := snd (complete_task Samples.db_tasks 99 1 7) in
  calculate_adherence (snd (complete_task db1 120 1 8)) 10 7 7
  = calculate_adherence db1 10 7 7.
Proof.
  apply (complete_task_again_keeps_adherence _ 120 1 8 10 7 7 0%nat
           {| task_id := 1; task_plan_id := 1; task_date := 8;
              task := "Read chapter 4"; timebox_min := 45;
              task_type := READING; status := COMPLETED;
              started_at := None; completed_at := Some 99 |});
    reflexivity.
Defined.

(** Completing a task does not change which tasks a user is shown for a
    day: in whatever order the database returns the rows before and
    after, the same task ids are listed, each as often as before. *)
Theorem complete_task_keeps_today_list
    (engine engine' : RowOrder) (db : Db) (now tid u today user_id : Z) :
  map task_id (get_today_tasks engine' (snd (complete_task db now tid u)) today user_id)
  ≡ₚ map task_id (get_today_tasks engine db today user_id).
Proof.
  assert (Hrows : forall pid,
             map task_id (filter (dated pid today)
                                 (daily_tasks (snd (complete_task db now tid u))))
             = map task_id (filter (dated pid today) (daily_tasks db))).
  { intros pid.
    destruct (first (has_id tid) (daily_tasks db)) as [[i t] |] eqn:Hfind.
    - rewrite (complete_task_found db now tid u i t Hfind).
      cbn [snd daily_tasks with_daily_tasks].
      unfold first in Hfind. apply list_find_Some in Hfind as (Hi & _ & _).
      apply (filter_insert_map _ task_id _ i t (set_completed t now) Hi);
        [unfold dated; simpl; tauto | reflexivity].
    - unfold complete_task. rewrite Hfind. reflexivity. }
  assert (Hplans : plans (snd (complete_task db now tid u)) = plans db).
  { unfold complete_task.
    destruct (first (has_id tid) (daily_tasks db)) as [[i t] |]; reflexivity. }
  unfold get_today_tasks. rewrite Hplans.
  destruct (first (active_plan_of user_id) (plans db)) as [[k plan] |];
    [| reflexivity].
  rewrite (Permutation_map task_id (arrange_permutation engine' _)).
  rewrite (Permutation_map task_id (arrange_permutation engine _)).
  rewrite Hrows. reflexivity.
Qed.

End CompletionAndScores.

(** ** Check-ins and the rule store *)

Section CheckinEffects.

Import ScoringService CheckinService.

Lemma add_or_update_keys_or_new (rules : list MemoryRule) (u : Z) (rt rv : string) :
  ((rule_key <$> add_or_update rules u rt rv) = (rule_key <$> rules) /\
   (u, rt) ∈ (rule_key <$> rules)) \/
  ((rule_key <$> add_or_update rules u rt rv) = (rule_key <$> rules) ++ [(u, rt)] /\
   (u, rt) ∉ (rule_key <$> rules)).
Proof.
  unfold add_or_update.
  destruct (first (rule_of u rt) rules) as [[i r] |] eqn:Hfind; unfold first in Hfind.
  - left. apply list_find_Some in Hfind as (Hi & [Hu Ht] & _). split.
    + rewrite list_fmap_insert. apply list_insert_id.
      rewrite list_lookup_fmap, Hi. reflexivity.
    + apply list_elem_of_fmap. exists r. split.
      * unfold rule_key. rewrite Hu, Ht. reflexivity.
      * eapply list_elem_of_lookup_2. exact Hi.
  - right. split; [rewrite fmap_app; reflexivity |].
    apply list_find_None in Hfind. intros Hin.
    apply list_elem_of_fmap in Hin as (r & Hk & Hr).
    rewrite Forall_forall in Hfind. apply (Hfind r Hr).
    unfold rule_key in Hk. injection Hk as -> ->. split; reflexivity.
Qed.

Lemma add_or_update_unique (rules : list MemoryRule) (u : Z) (rt rv : string) :
  NoDup ((rule_key <$> rules)) -> NoDup ((rule_key <$> add_or_update rules u rt rv)).
Proof.
  intros Hnd.
  destruct (add_or_update_keys_or_new rules u rt rv) as [[-> _] | [-> Hnew]];
    [exact Hnd |].
  apply NoDup_app. split; [exact Hnd |]. split.
  - intros k Hk Hk'. apply list_elem_of_singleton in Hk'. subst k. contradiction.
  - apply NoDup_singleton.
Qed.



(** What a reinforcement may change in a rule: its confidence only. *)
Lemma add_or_update_keeps_rules (rules : list MemoryRule) (u : Z) (rt rv : string)
    (j : nat) (r : MemoryRule) :
  rules !! j = Some r ->
  exists r',
    add_or_update rules u rt rv !! j = Some r' /\ same_rule r r'.
Proof.
  intros Hj. unfold add_or_update.
  destruct (first (rule_of u rt) rules) as [[i x] |] eqn:Hfind; unfold first in Hfind.
  - apply list_find_Some in Hfind as (Hi & _ & _).
    destruct (decide (i = j)) as [-> | Hne].
    + rewrite Hi in Hj. injection Hj as ->.
      eexists. split.
      * apply list_lookup_insert_eq. eapply lookup_lt_Some. exact Hi.
      * repeat split.
    + exists r. split; [rewrite list_lookup_insert_ne by exact Hne; exact Hj |].
      repeat split.
  - exists r. split; [apply lookup_app_l_Some; exact Hj | repeat split].
Qed.

Lemma same_rule_trans (a b c : MemoryRule) :
  same_rule a b -> same_rule b c -> same_rule a c.
Proof. unfold same_rule. intuition congruence. Qed.

Lemma update_memory_rules_tables (db : Db) (u : Z) (y b : option string) :
  let db' := _update_memory_rules db u y b in
  commitments db' = commitments db /\ plans db' = plans db /\
  daily_tasks db' = daily_tasks db /\ checkins db' = checkins db /\
  quizzes db' = quizzes db.
Proof.
  unfold _update_memory_rules, _add_or_update_rule.
  destruct (says_skipped y), (mentions_time b); repeat split.
Qed.

(** A check-in never makes two rules share a (user, type) key. *)
Theorem process_checkin_keeps_rule_keys_unique
    (db : Db) (today : Z) (llm : option CheckinResponse) (rag : list Citation)
    (u : Z) (y t b : option string) :
  NoDup (rule_key <$> memory_rules db) ->
  NoDup (rule_key <$> memory_rules (snd (process_checkin db today llm rag u y t b))).
Proof.
  intros Hnd. unfold process_checkin.
  destruct (first (active_commitment_of u) (commitments db)) as [[j c] |];
    [| exact Hnd].
  cbn [snd]. unfold _update_memory_rules, _add_or_update_rule.
  destruct (says_skipped y), (mentions_time b);
    cbn [memory_rules with_rules with_checkins];
    repeat apply add_or_update_unique; exact Hnd.
Qed.

Lemma process_checkin_keeps_rule_keys_unique_witness :
  NoDup (rule_key <$>
           memory_rules
             (snd (process_checkin Samples.db_committed 10 None [] 7
                     (Some "Skipped") None (Some "no time")))).
Proof.
  apply process_checkin_keeps_rule_keys_unique. apply NoDup_nil. exact I.
Defined.

(** A check-in never deletes a rule and never rewrites one: every stored
    rule keeps its position, id, user, type, value and active flag. *)
Theorem process_checkin_keeps_rules
    (db : Db) (today : Z) (llm : option CheckinResponse) (rag : list Citation)
    (u : Z) (y t b : option string) (j : nat) (r : MemoryRule) :
  memory_rules db !! j = Some r ->
  exists r',
    memory_rules (snd (process_checkin db today llm rag u y t b)) !! j = Some r' /\
    same_rule r r'.
Proof.
  intros Hj. unfold process_checkin.
  destruct (first (active_commitment_of u) (commitments db)) as [[k c] |];
    [| exists r; split; [exact Hj | repeat split]].
  cbn [snd]. unfold _update_memory_rules, _add_or_update_rule.
  destruct (says_skipped y), (mentions_time b);
    cbn [memory_rules with_rules with_checkins].
  - destruct (add_or_update_keeps_rules (memory_rules db) u "task_skip"
                "User skipped learning session" j r Hj) as (r1 & H1 & S1).
    destruct (add_or_update_keeps_rules _ u "time_constraint"
                "User frequently has time constraints - prefer shorter tasks"
                j r1 H1) as (r2 & H2 & S2).
    exists r2. split; [exact H2 | eapply same_rule_trans; eassumption].
  - apply add_or_update_keeps_rules. exact Hj.
  - apply add_or_update_keeps_rules. exact Hj.
  - exists r. split; [exact Hj | repeat split].
Qed.

Lemma process_checkin_keeps_rules_witness :
  exists r',
    memory_rules
      (snd (process_checkin
              (with_rules Samples.db_committed [Samples.inactive_rule]) 10 None [] 7
              None None None)) !! 0%nat = Some r' /\
    same_rule Samples.inactive_rule r'.
Proof.
  apply (process_checkin_keeps_rules
           (with_rules Samples.db_committed [Samples.inactive_rule])).
  reflexivity.
Defined.










(** A check-in of a user with an active commitment stores exactly one
    check-in row, dated today, and touches no commitment, plan, task or
    quiz; from then on the user's status no longer depends on the
    check-in count: it is at_risk only below 0.3 adherence. *)
Theorem process_checkin_records_checkin
    (db : Db) (today : Z) (llm : option CheckinResponse) (rag : list Citation)
    (u : Z) (y t b : option string) (j : nat) (c : Commitment) :
  first (active_commitment_of u) (commitments db) = Some (j, c) ->
  let db' := snd (process_checkin db today llm rag u y t b) in
  (exists row,
      checkins db' = checkins db ++ [row] /\
      checkin_user_id row = u /\ checkin_date row = today /\
      checkin_yesterday row = y /\ checkin_today row = t /\ checkin_blockers row = b) /\
  commitments db' = commitments db /\ plans db' = plans db /\
  daily_tasks db' = daily_tasks db /\ quizzes db' = quizzes db /\
  recent_checkins db' today u = S (recent_checkins db today u) /\
  get_user_status db' today u
  = (let a := calculate_adherence db today u 7 in
     if ltb a f0_3 then "at_risk"
     else if ltb a f0_6 then "recovering" else "active")%string.
Proof.
  intros Hc db'. subst db'. unfold process_checkin. rewrite Hc. cbn [snd].
  match goal with
  | |- context [_update_memory_rules ?d u y b] =>
      destruct (update_memory_rules_tables d u y b) as (Ec & Ep & Et & Ek & Eq)
  end.
  cbn [commitments plans daily_tasks checkins quizzes with_checkins] in *.
  assert (Hrecent :
    recent_checkins
      (_update_memory_rules
         (with_checkins db
            (checkins db ++
             [{| checkin_id := next_id (map checkin_id (checkins db));
                 checkin_user_id := u; checkin_date := today;
                 checkin_yesterday := y; checkin_today := t;
                 checkin_blockers := b;
                 checkin_next_task := cr_next_task (default (fallback_response b) llm);
                 checkin_fallback_task :=
                   cr_fallback_task (default (fallback_response b) llm);
                 checkin_advice :=
                   str_or (cr_blocker_advice (default (fallback_response b) llm))
                          (cr_motivation_note (default (fallback_response b) llm)) |}]))
         u y b) today u
    = S (recent_checkins db today u)).
  { unfold recent_checkins. rewrite Ek, filter_app, length_app.
    rewrite filter_cons. case_decide as Hd.
    - simpl. lia.
    - exfalso. apply Hd. unfold recent_checkin. simpl. lia. }
  split; [eexists; split; [exact Ek | repeat split] |].
  split; [exact Ec |]. split; [exact Ep |]. split; [exact Et |].
  split; [exact Eq |]. split; [exact Hrecent |].
  unfold get_user_status. rewrite Hrecent.
  unfold calculate_adherence. rewrite Ep, Et.
  unfold status_of. simpl Nat.eqb. rewrite orb_false_r. reflexivity.
Qed.

Lemma process_checkin_records_checkin_witness :
  let db' := snd (process_checkin Samples.db_tasks 10 None [] 7 None None None) in
  recent_checkins db' 10 7 = 1%nat /\ plans db' = plans Samples.db_tasks.
Proof.
  destruct (process_checkin_records_checkin Samples.db_tasks 10 None [] 7
              None None None 0%nat Samples.learner eq_refl)
    as (_ & _ & Hp & _ & _ & Hr & _).
  split; [exact Hr | exact Hp].
Defined.

End CheckinEffects.

(** ** Plan versions and what a plan request leaves alone *)

Section PlanVersions.

Import PlanService.

(** Every day of a week is mapped to the Monday that starts it. *)
Theorem week_start_constant_over_week (monday k : Z) :
  weekday monday = 0 -> 0 <= k <= 6 -> _get_week_start (monday + k) = monday.
Proof.
  unfold _get_week_start, weekday. intros Hm Hk.
  pose proof (Z.div_mod (monday + 6) 7 ltac:(lia)) as Hdm.
  rewrite Hm in Hdm.
  replace (monday + k + 6) with (k + (monday + 6) / 7 * 7) by lia.
  rewrite Z.mod_add by lia. rewrite Z.mod_small by lia. lia.
Qed.

Lemma week_start_constant_over_week_witness : _get_week_start (8 + 6) = 8.
Proof. apply week_start_constant_over_week; [reflexivity | lia]. Defined.


Lemma filter_length_0_find {A} (P : A -> Prop) `{!forall x, Decision (P x)} (l : list A) :
  length (filter P l) = 0%nat -> first P l = None.
Proof.
  intros H0. unfold first. apply list_find_None. apply Forall_forall.
  intros x Hx HP.
  assert (Hin : x ∈ filter P l) by (apply list_elem_of_filter; split; assumption).
  destruct (filter P l); [inversion Hin | discriminate H0].
Qed.



Lemma add_daily_tasks_prefix (plan : Plan) (tasks : list TaskData) (rows : list DailyTask) :
  exists new_rows, foldl (add_daily_task plan) rows tasks = rows ++ new_rows.
Proof.
  destruct (add_daily_tasks_rows plan tasks rows) as (new_rows & Heq & _).
  exists new_rows. exact Heq.
Qed.

(** What no plan request does: it leaves commitments, check-ins, quizzes
    and rules alone, keeps every stored daily task, and keeps every
    stored plan in place with its id, user, week, version and payload;
    it activates no stored plan, and changes no plan of another user. *)
Theorem generate_weekly_plan_preserves
    (db : Db) (today : Z) (llm : option PlanJson) (u : Z) (force : bool) :
  let db' := snd (generate_weekly_plan db today llm u force) in
  commitments db' = commitments db /\ checkins db' = checkins db /\
  quizzes db' = quizzes db /\ memory_rules db' = memory_rules db /\
  (exists rows, daily_tasks db' = daily_tasks db ++ rows) /\
  (length (plans db) <= length (plans db') <= S (length (plans db)))%nat /\
  (forall k p,
      plans db !! k = Some p ->
      exists p',
        plans db' !! k = Some p' /\
        plan_id p' = plan_id p /\ plan_user_id p' = plan_user_id p /\
        week_start p' = week_start p /\ version p' = version p /\
        plan_json p' = plan_json p /\
        (plan_is_active p' = true -> plan_is_active p = true) /\
        (plan_user_id p <> u -> p' = p)).
Proof.
  intros db'. subst db'.
  assert (Hsame : forall k p, plans db !! k = Some p ->
            exists p', plans db !! k = Some p' /\
              plan_id p' = plan_id p /\ plan_user_id p' = plan_user_id p /\
              week_start p' = week_start p /\ version p' = version p /\
              plan_json p' = plan_json p /\
              (plan_is_active p' = true -> plan_is_active p = true) /\
              (plan_user_id p <> u -> p' = p)).
  { intros k p Hk. exists p. repeat split; auto. }
  destruct (first (active_commitment_of u) (commitments db)) as [[j c] |] eqn:Hc.
  2: { rewrite (generate_without_commitment db today llm u force Hc). cbn [snd].
       repeat split; try lia; [exists []; symmetry; apply app_nil_r | exact Hsame]. }
  destruct (first (active_plan_of_week u (_get_week_start today)) (plans db))
    as [[i plan] |] eqn:Hp.
  - destruct force.
    + unfold generate_weekly_plan. rewrite Hc, Hp. cbn [snd].
      cbn [commitments plans daily_tasks checkins quizzes memory_rules
           _create_daily_tasks with_plans].
      repeat split.
      * apply add_daily_tasks_prefix.
      * rewrite length_app, length_insert. lia.
      * rewrite length_app, length_insert. simpl. lia.
      * intros k p Hk. unfold first in Hp.
        apply list_find_Some in Hp as (Hi & (Hu & _ & _) & _).
        destruct (decide (i = k)) as [-> | Hne].
        -- rewrite Hi in Hk. injection Hk as ->.
           exists (set_plan_inactive p). split.
           ++ apply lookup_app_l_Some. apply list_lookup_insert_eq.
              eapply lookup_lt_Some. exact Hi.
           ++ repeat split; try discriminate. intros Hne. contradiction.
        -- exists p. split.
           ++ apply lookup_app_l_Some. rewrite list_lookup_insert_ne by exact Hne.
              exact Hk.
           ++ repeat split; auto.
    + rewrite (generate_existing db today llm u j i c plan Hc Hp). cbn [snd].
      repeat split; try lia; [exists []; symmetry; apply app_nil_r | exact Hsame].
  - rewrite (generate_first_of_week db today llm u force j c Hc Hp). cbn [snd].
    cbn [commitments plans daily_tasks checkins quizzes memory_rules
         _create_daily_tasks with_plans].
    repeat split.
    + apply add_daily_tasks_prefix.
    + rewrite length_app. lia.
    + rewrite length_app. simpl. lia.
    + intros k p Hk. exists p. split; [apply lookup_app_l_Some; exact Hk |].
      repeat split; auto.
Qed.

Lemma generate_weekly_plan_preserves_witness :
  exists p',
    plans (snd (generate_weekly_plan Samples.db_last_week 10 None 7 true)) !! 0%nat
    = Some p' /\
    version p' = 1 /\ plan_is_active p' = false.
Proof.
  destruct (generate_weekly_plan_preserves Samples.db_last_week 10 None 7 true)
    as (_ & _ & _ & _ & _ & _ & H).
  destruct (H 0%nat Samples.last_week_plan eq_refl) as (p' & Hp & _ & _ & _ & Hv & _).
  exists p'. split; [exact Hp |]. split; [exact Hv |].
  vm_compute in Hp. injection Hp as <-. reflexivity.
Defined.

(** When the content generator fails and a plan is created, the plan is
    the fallback: five pending tasks on Monday to Friday of the current
    week, reading, coding, reading, coding and review; the call returns,
    and the decision lists the first three. *)
Theorem fallback_plan_materialized
    (db : Db) (today : Z) (u : Z) (force : bool) (j : nat) (c : Commitment) :
  first (active_commitment_of u) (commitments db) = Some (j, c) ->
  first (active_plan_of_week u (_get_week_start today)) (plans db) = None ->
  let r := generate_weekly_plan db today None u force in
  let ws := _get_week_start today in
  exists rows,
    daily_tasks (snd r) = daily_tasks db ++ rows /\
    map (fun t => (task_date t - ws, task_type t, timebox_min t, status t)) rows
    = [ (0, READING, 45, PENDING); (1, CODING, 30, PENDING); (2, READING, 45, PENDING);
        (3, CODING, 30, PENDING); (4, REVIEW, 20, PENDING) ] /\
    exists d,
      fst r = Returned d /\
      map nt_task (next_tasks d)
      = ["Review fundamentals"; "Practice exercise 1"; "Continue learning"]%string /\
      reason d = ("Week 1: Getting started with " +:+ goal c)%string.
Proof.
  intros Hc Hp r ws. subst r ws.
  rewrite (generate_first_of_week db today None u force j c Hc Hp).
  cbn [fst snd]. eexists. split; [| split].
  - cbn [daily_tasks _create_daily_tasks with_plans plan_json first_plan_of_week
         _default_plan pj_tasks default from_option id foldl].
    unfold add_daily_task. rewrite <- !app_assoc. reflexivity.
  - cbn. repeat f_equal; lia.
  - rewrite plan_to_decision_cases. eexists. split; [reflexivity |].
    split; reflexivity.
Qed.

Lemma fallback_plan_materialized_witness :
  exists rows,
    daily_tasks (snd (generate_weekly_plan Samples.db_committed 10 None 7 false))
    = rows /\ length rows = 5%nat.
Proof.
  destruct (fallback_plan_materialized Samples.db_committed 10 7 false 0%nat
              Samples.learner eq_refl eq_refl) as (rows & Hr & Hm & _).
  exists rows. split; [exact Hr |].
  rewrite <- (length_map (fun t => (task_date t - _get_week_start 10, task_type t,
                                    timebox_min t, status t))).
  rewrite Hm. reflexivity.
Defined.

End PlanVersions.

(** ** Retention, the metrics summary and the decision engine *)

Section MetricsAndEngine.

Import ScoringService Metrics DecisionEngine.

Lemma foldl_add_shift (xs : list Z) (a : Z) : foldl Z.add a xs = a + foldl Z.add 0 xs.
Proof.
  revert a. induction xs as [| x xs IH]; intros a; cbn [foldl]; [lia |].
  rewrite (IH (a + x)), (IH (0 + x)). lia.
Qed.

Lemma sum_int_cons (x : Z) (xs : list Z) : sum_int (x :: xs) = x + sum_int xs.
Proof. unfold sum_int. cbn [foldl]. rewrite foldl_add_shift. lia. Qed.

Lemma sums_ordered (cs : list ConceptMastery) :
  Forall (fun c => 0 <= times_correct c <= times_seen c) cs ->
  0 <= sum_int (map times_correct cs) <= sum_int (map times_seen cs).
Proof.
  induction 1 as [| c cs Hc _ IH]; [unfold sum_int; simpl; lia |].
  simpl map. rewrite !sum_int_cons. lia.
Qed.

Lemma round_2_unit (n d : Z) :
  0 <= n <= d -> 0 < d ->
  leb f0_0 (round (round_ratio n d) 2) = true /\
  leb (round (round_ratio n d) 2) f1_0 = true.
Proof.
  intros Hn Hd.
  rewrite round_2_hundredths by (apply round_ratio_nonneg_finite; lia).
  destruct (hundredths_round_ratio_mono n n d) as [[H0 _] H100]; try lia.
  split.
  - change f0_0 with (round_ratio 0 100). apply round_ratio_100_mono; lia.
  - replace f1_0 with (round_ratio 100 100) by (vm_compute; reflexivity).
    apply round_ratio_100_mono; lia.
Qed.

(** Retention is 0.0 for a user without mastery rows and for rows never
    seen, so the quotient is never taken over zero. *)
Theorem calculate_retention_nothing_seen (s : Store) (user_id : Z) :
  sum_int (map times_seen (filter (mastery_of user_id) (concept_mastery s))) = 0 ->
  calculate_retention s user_id = f0_0.
Proof.
  intros H0. unfold calculate_retention.
  destruct (filter (mastery_of user_id) (concept_mastery s)) as [| c cs];
    [reflexivity |].
  rewrite H0. reflexivity.
Qed.

Lemma calculate_retention_nothing_seen_witness :
  calculate_retention MoreSamples.store 8 = f0_0.
Proof. apply calculate_retention_nothing_seen. reflexivity. Defined.

(** When no mastery row of the user counts more correct answers than
    sightings, the retention score lies between 0.0 and 1.0. *)
Theorem calculate_retention_unit_interval (s : Store) (user_id : Z) :
  Forall (fun c => 0 <= times_correct c <= times_seen c)
         (filter (mastery_of user_id) (concept_mastery s)) ->
  leb f0_0 (calculate_retention s user_id) = true /\
  leb (calculate_retention s user_id) f1_0 = true.
Proof.
  intros Hrows. unfold calculate_retention.
  pose proof (sums_ordered _ Hrows) as Hsum.
  destruct (filter (mastery_of user_id) (concept_mastery s)) as [| c cs];
    [split; reflexivity |].
  set (seen := sum_int (map times_seen (c :: cs))) in *.
  set (correct := sum_int (map times_correct (c :: cs))) in *.
  destruct (Z.eqb_spec seen 0) as [_ | Hne]; [split; reflexivity |].
  unfold int_truediv_signed.
  destruct (Z.ltb_spec correct 0); [lia |].
  destruct (Z.ltb_spec seen 0); [lia |].
  cbn [xorb]. rewrite !Z.abs_eq by lia.
  apply round_2_unit; lia.
Qed.

Lemma calculate_retention_unit_interval_witness :
  leb f0_0 (calculate_retention MoreSamples.store 7) = true /\
  leb (calculate_retention MoreSamples.store 7) f1_0 = true.
Proof.
  apply calculate_retention_unit_interval.
  repeat constructor; simpl; lia.
Defined.

(** The week counters of the metrics summary: the current week is at
    least 1 and the remaining weeks at least 0; they are 1 and 4 without
    an active commitment; with one created on or before today the current
    week is one more than the number of full weeks since, and the
    remaining weeks are the full weeks up to the target date. *)
Theorem get_full_metrics_weeks (s : Store) (today user_id : Z) :
  let m := get_full_metrics s today user_id in
  1 <= current_week m /\ 0 <= weeks_remaining m /\
  summary_status m = get_user_status (core s) today user_id /\
  adherence_score m = calculate_adherence (core s) today user_id 7 /\
  match first (active_commitment_of user_id) (commitments (core s)) with
  | None => current_week m = 1 /\ weeks_remaining m = 4
  | Some (_, c) =>
      (commitment_created_at c <= today ->
       current_week m = (today - commitment_created_at c) / 7 + 1) /\
      (today <= target_date c -> weeks_remaining m = (target_date c - today) / 7) /\
      (target_date c < today -> weeks_remaining m = 0)
  end.
Proof.
  intros m. subst m. unfold get_full_metrics.
  destruct (first (active_commitment_of user_id) (commitments (core s)))
    as [[j c] |]; cbn [current_week weeks_remaining summary_status adherence_score].
  - repeat split; try lia.
    + intros Hc. pose proof (Z.div_pos (today - commitment_created_at c) 7). lia.
    + intros Ht. pose proof (Z.div_pos (target_date c - today) 7). lia.
    + intros Ht.
      assert ((target_date c - today) / 7 < 0) by (apply Z.div_lt_upper_bound; lia).
      lia.
  - repeat split; lia.
Qed.

Lemma get_full_metrics_weeks_witness :
  current_week (get_full_metrics MoreSamples.store 10 7) = 2 /\
  weeks_remaining (get_full_metrics MoreSamples.store 10 7) = 112.
Proof.
  destruct (get_full_metrics_weeks MoreSamples.store 10 7) as (_ & _ & _ & _ & H).
  assert (Hf : first (active_commitment_of 7) (commitments (core MoreSamples.store))
               = Some (0%nat, Samples.learner)) by reflexivity.
  rewrite Hf in H. destruct H as (Hweek & Hleft & _).
  split; [rewrite Hweek by (cbn; lia) | rewrite Hleft by (cbn; lia)]; reflexivity.
Defined.

Lemma ltb_above_0_8_not_below_0_6 (a : float) :
  ltb f0_8 a = true -> ltb a f0_6 = false.
Proof.
  unfold ltb, SFltb, f0_8, f0_6.
  destruct a as [s | s | | s m e]; cbn -[Pos.compare_cont Z.compare].
  - discriminate.
  - destruct s; [discriminate | reflexivity].
  - discriminate.
  - destruct s; [discriminate |].
    destruct (Z.compare_spec (-53) e) as [<- | Hlt | Hgt].
    + change (-53 ?= -53) with Eq. cbv iota.
      rewrite !Pos.compare_cont_spec. cbn [Pos.switch_Eq].
      destruct (Pos.compare_spec 7205759403792794 m) as [? | Hm | ?];
        try discriminate.
      intros _.
      destruct (Pos.compare_spec m 5404319552844595) as [? | Hm' | ?];
        [reflexivity | exfalso | reflexivity].
      apply (Pos.lt_irrefl m).
      apply (Pos.lt_trans _ _ _ Hm'). refine (Pos.lt_trans _ _ _ _ Hm).
      vm_compute. reflexivity.
    + intros _. destruct (Z.compare_spec e (-53)); try reflexivity; lia.
    + discriminate.
Qed.

(** The advice and the status of one decision agree: reduce_scope is
    given only to a user reported at_risk, and increase_challenge never
    to a user reported recovering. *)
Theorem adjustment_agrees_with_status
    (s : Store) (today user_id : Z) (reason_text : string) (tasks : list NextTask)
    (resources : option (list ResourceUsed)) (score : float)
    (flags : option (list string)) :
  let d := build_decision s today user_id reason_text tasks resources score flags in
  (plan_adjustment (action d) = "reduce_scope"%string ->
   signals_status (signals d) = "at_risk"%string) /\
  (plan_adjustment (action d) = "increase_challenge"%string ->
   signals_status (signals d) <> "recovering"%string).
Proof.
  intros d. subst d.
  cbn [build_decision action signals generate_action plan_adjustment get_signals
       signals_status adherence knowledge retention].
  unfold get_full_metrics.
  destruct (match first (active_commitment_of user_id) (commitments (core s)) with
            | Some (_, c) => _ | None => _ end) as [week remaining].
  cbn [adherence_score knowledge_score retention_score summary_status].
  unfold get_user_status, status_of.
  set (a := calculate_adherence (core s) today user_id 7).
  set (n := recent_checkins (core s) today user_id).
  unfold AdaptationPolicy.determine_adjustment,
    AdaptationPolicy.LOW_ADHERENCE_THRESHOLD, AdaptationPolicy.LOW_RETENTION_THRESHOLD.
  destruct (ltb a f0_3) eqn:Ha.
  - split; [reflexivity | discriminate].
  - destruct (ltb (calculate_retention s user_id) f0_5);
      [split; discriminate |].
    destruct (ltb f0_8 (calculate_knowledge (core s) user_id));
      [| split; discriminate].
    destruct (ltb f0_8 a) eqn:H8; [| split; discriminate].
    split; [discriminate |]. intros _.
    rewrite (ltb_above_0_8_not_below_0_6 a H8).
    destruct (Nat.eqb n 0); simpl; discriminate.
Qed.

Lemma adjustment_agrees_with_status_witness :
  signals_status (signals (build_decision MoreSamples.store 10 7 "Keep going" [] None f1_0 None))
  = "at_risk"%string.
Proof.
  destruct (adjustment_agrees_with_status MoreSamples.store 10 7 "Keep going"%string []
              None f1_0 None) as [H _].
  apply H. vm_compute. reflexivity.
Defined.

End MetricsAndEngine.

(** ** Mitigations, intake and premortem *)

Section Mitigations.

Import DecisionEngine.

Lemma get_active_mitigations_length (s : Store) (user_id : Z) :
  (length (get_active_mitigations s user_id) <= 3)%nat.
Proof.
  unfold get_active_mitigations, top_risks.
  destruct (first (active_commitment_of user_id) (commitments (core s)))
    as [[j c] |]; [| simpl; lia].
  rewrite length_map.
  etransitivity; [apply length_filter |].
  rewrite length_take. lia.
Qed.

(** The mitigations of an action are the at most three risk mitigations
    of the active commitment, followed by the check-in reminder exactly
    when the user is at_risk, the reminder is not already among them and
    fewer than three were found: three risk mitigations crowd it out. *)
Theorem generate_action_mitigations (s : Store) (today user_id : Z) :
  let found := get_active_mitigations s user_id in
  let at_risk := String.eqb (signals_status (get_signals s today user_id)) "at_risk" in
  let listed := existsb (String.eqb "check_in_reminder") found in
  (length found <= 3)%nat /\
  (length (risk_mitigation (generate_action s today user_id)) <= 3)%nat /\
  risk_mitigation (generate_action s today user_id)
  = (if at_risk && negb listed && Nat.ltb (length found) 3
     then found ++ ["check_in_reminder"%string]
     else found).
Proof.
  intros found at_risk listed.
  pose proof (get_active_mitigations_length s user_id) as Hlen. fold found in Hlen.
  split; [exact Hlen |].
  unfold generate_action. cbn [risk_mitigation]. fold found at_risk listed.
  split; [rewrite length_take; lia |].
  destruct (at_risk && negb listed)%bool; cbn [andb].
  - destruct (Nat.ltb_spec (length found) 3) as [Hlt | Hge].
    + apply take_ge. rewrite length_app. simpl. lia.
    + rewrite take_app_le by lia. apply take_ge. lia.
  - apply take_ge. lia.
Qed.

End Mitigations.

Section Intake.

Import IntakeService PlanService.

Lemma deactivate_not_active (u : Z) (c : Commitment) :
  ~ active_commitment_of u (deactivate u c).
Proof.
  unfold deactivate. case_decide as Hd; [| exact Hd].
  intros [_ H]. discriminate H.
Qed.

Lemma deactivate_other (u u' : Z) (c : Commitment) :
  u' <> u -> (active_commitment_of u' (deactivate u c) <-> active_commitment_of u' c).
Proof.
  intros Hne. unfold deactivate. case_decide as Hd; [| tauto].
  destruct Hd as [Hu _]. unfold active_commitment_of. simpl. split; intros [H _]; congruence.
Qed.

Lemma filter_deactivated (u : Z) (cs : list Commitment) :
  filter (active_commitment_of u) (map (deactivate u) cs) = [].
Proof.
  induction cs as [| c cs IH]; [reflexivity |].
  simpl map. rewrite filter_cons. case_decide as Hd; [| exact IH].
  exfalso. exact (deactivate_not_active u c Hd).
Qed.

Lemma filter_deactivated_other (u u' : Z) (cs : list Commitment) :
  u' <> u ->
  filter (active_commitment_of u') (map (deactivate u) cs)
  = filter (active_commitment_of u') cs.
Proof.
  intros Hne. induction cs as [| c cs IH]; [reflexivity |].
  simpl map. rewrite !filter_cons.
  pose proof (deactivate_other u u' c Hne) as Hiff.
  assert (Hkeep : active_commitment_of u' c -> deactivate u c = c).
  { intros [Hu' _]. unfold deactivate. case_decide as Hd; [| reflexivity].
    destruct Hd as [Hu _]. congruence. }
  repeat case_decide; try tauto.
  all: try (rewrite Hkeep by assumption; f_equal; exact IH).
  all: try exact IH.
Qed.

(** After an intake the user has exactly one active commitment, the new
    one; no commitment is deleted, the active commitments of every other
    user are the same as before, and no other table changes. *)
Theorem create_commitment_single_active
    (db : Db) (created : Z) (llm : option IntakeResponse)
    (u : Z) (goal_text : string) (target hours : Z) :
  let db' := snd (create_commitment db created llm u goal_text target hours) in
  exists new,
    filter (active_commitment_of u) (commitments db') = [new] /\
    get_active_commitment db' u = Some new /\
    goal new = goal_text /\ target_date new = target /\ weekly_hours new = hours /\
    commitment_user_id new = u /\ commitment_created_at new = created /\
    length (commitments db') = S (length (commitments db)) /\
    (forall u', u' <> u ->
       filter (active_commitment_of u') (commitments db')
       = filter (active_commitment_of u') (commitments db)) /\
    plans db' = plans db /\ daily_tasks db' = daily_tasks db /\
    checkins db' = checkins db /\ quizzes db' = quizzes db /\
    memory_rules db' = memory_rules db.
Proof.
  intros db'. subst db'. unfold create_commitment.
  destruct (match llm with Some _ => _ | None => _ end) as [reason_text initial_tasks].
  cbn [snd commitments plans daily_tasks checkins quizzes memory_rules with_commitments].
  eexists. split; [| split].
  - rewrite filter_app, filter_deactivated. cbn [app].
    rewrite filter_cons. case_decide as Hd; [reflexivity |].
    exfalso. apply Hd. split; reflexivity.
  - unfold get_active_commitment.
    cbn [commitments with_commitments].
    erewrite first_app_new; [reflexivity | | split; reflexivity].
    apply filter_length_0_find. rewrite filter_deactivated. reflexivity.
  - repeat split.
    + rewrite length_app, length_map. simpl. lia.
    + intros u' Hne. rewrite filter_app, filter_deactivated_other by exact Hne.
      rewrite filter_cons. case_decide as Hd; [| apply app_nil_r].
      destruct Hd as [Hu _]. simpl in Hu. congruence.
Qed.


Lemma create_commitment_single_active_witness :
  filter (active_commitment_of 8)
         (commitments (snd (create_commitment Samples.db_committed 5 None 7 "Go" 900 4)))
  = filter (active_commitment_of 8) (commitments Samples.db_committed).
Proof.
  destruct (create_commitment_single_active Samples.db_committed 5 None 7 "Go"%string 900 4)
    as (new & _ & _ & _ & _ & _ & _ & _ & _ & H & _).
  apply H. lia.
Defined.



End Intake.

Section Premortem.

Import PremortermService DecisionEngine.

(** What a stored risk keeps of the submitted one. *)
Lemma add_risks_rows (cid : Z) (risks : list RiskData) (rows : list PremortermRisk) :
  exists new_rows,
    foldl (add_risk cid) rows risks = rows ++ new_rows /\
    Forall (risk_of cid) new_rows /\
    map (fun r => (risk r, mitigation r, priority r)) new_rows
    = map (fun d => (default ""%string (rd_risk d), default ""%string (rd_mitigation d),
                     default 5 (rd_priority d))) risks.
Proof.
  revert rows. induction risks as [| d risks IH]; intros rows.
  - exists []. split; [symmetry; apply app_nil_r | split; [constructor | reflexivity]].
  - cbn [foldl]. destruct (IH (add_risk cid rows d)) as (more & Heq & Hall & Hmap).
    eexists (_ :: more). split; [| split].
    + rewrite Heq. unfold add_risk. rewrite <- app_assoc. reflexivity.
    + constructor; [reflexivity | exact Hall].
    + cbn [map]. rewrite Hmap. reflexivity.
Qed.

Lemma filter_filter_not (cid : Z) (rows : list PremortermRisk) :
  filter (risk_of cid) (filter (not_risk_of cid) rows) = [] /\
  filter (not_risk_of cid) (filter (not_risk_of cid) rows) = filter (not_risk_of cid) rows.
Proof.
  induction rows as [| r rows [IH1 IH2]]; [split; reflexivity |].
  rewrite !filter_cons. case_decide as Hd.
  - rewrite !filter_cons. unfold risk_of, not_risk_of in *.
    repeat case_decide; try contradiction. split; [exact IH1 | f_equal; exact IH2].
  - split; assumption.
Qed.

Lemma filter_all {A} (P : A -> Prop) `{!forall x, Decision (P x)} (l : list A) :
  Forall P l -> filter P l = l.
Proof.
  induction 1 as [| x l Hx _ IH]; [reflexivity |].
  rewrite filter_cons. case_decide; [f_equal; exact IH | contradiction].
Qed.

Lemma filter_none {A} (P : A -> Prop) `{!forall x, Decision (P x)} (l : list A) :
  Forall (fun x => ~ P x) l -> filter P l = [].
Proof.
  induction 1 as [| x l Hx _ IH]; [reflexivity |].
  rewrite filter_cons. case_decide; [contradiction | exact IH].
Qed.

Lemma process_premortem_store
    (s : Store) (llm : option PremortemResponse) (u : Z) (failure_reasons : list string)
    (j : nat) (c : Commitment) :
  first (active_commitment_of u) (commitments (core s)) = Some (j, c) ->
  let s' := snd (process_premortem s llm u failure_reasons) in
  map (fun r => (risk r, mitigation r, priority r))
      (filter (risk_of (commitment_id c)) (premortem_risks s'))
  = submitted llm failure_reasons /\
  filter (not_risk_of (commitment_id c)) (premortem_risks s')
  = filter (not_risk_of (commitment_id c)) (premortem_risks s) /\
  core s' = core s /\ concept_mastery s' = concept_mastery s.
Proof.
  intros Hc s'. subst s'. unfold process_premortem, submitted. rewrite Hc.
  set (risks := match llm with
                | Some response => default [] (pr_risks response)
                | None => fallback_risks failure_reasons
                end).
  assert (Hpair :
    (match llm with
     | Some response =>
         (default [] (pr_risks response),
          default "Risk assessment complete"%string (pr_summary response))
     | None =>
         (fallback_risks failure_reasons,
          "Risk assessment complete. Consider these mitigations."%string)
     end) = (risks, match llm with
                    | Some response =>
                        default "Risk assessment complete"%string (pr_summary response)
                    | None => "Risk assessment complete. Consider these mitigations."%string
                    end)) by (destruct llm; reflexivity).
  rewrite Hpair.
  destruct (add_risks_rows (commitment_id c) risks
              (filter (not_risk_of (commitment_id c)) (premortem_risks s)))
    as (rows & Heq & Hall & Hmap).
  assert (Hstore : forall o : outcome AgentDecision * Store,
            snd o = with_risks s (foldl (add_risk (commitment_id c))
                      (filter (not_risk_of (commitment_id c)) (premortem_risks s)) risks) ->
            map (fun r => (risk r, mitigation r, priority r))
                (filter (risk_of (commitment_id c)) (premortem_risks (snd o)))
            = map (fun d => (default ""%string (rd_risk d),
                             default ""%string (rd_mitigation d),
                             default 5 (rd_priority d))) risks /\
            filter (not_risk_of (commitment_id c)) (premortem_risks (snd o))
            = filter (not_risk_of (commitment_id c)) (premortem_risks s) /\
            core (snd o) = core s /\ concept_mastery (snd o) = concept_mastery s).
  { intros o ->. cbn [premortem_risks core concept_mastery with_risks].
    rewrite Heq, !filter_app.
    destruct (filter_filter_not (commitment_id c) (premortem_risks s)) as [-> ->].
    rewrite (filter_all _ rows Hall).
    rewrite (filter_none (not_risk_of (commitment_id c)) rows)
      by (eapply Forall_impl; [exact Hall |]; intros r Hr Hn; exact (Hn Hr)).
    rewrite app_nil_r. repeat split. exact Hmap. }
  apply Hstore.
  destruct (if String.eqb (goal c) "" then Some "basics"%string else first_word (goal c));
    reflexivity.
Qed.

(** A premortem replaces the risks of the active commitment: afterwards
    they are exactly the submitted ones, in order, with missing keys
    defaulted; the risks of every other commitment, and every other
    table, are untouched.  This holds whether or not the call returns. *)
Theorem process_premortem_replaces_risks
    (s : Store) (llm : option PremortemResponse) (u : Z) (failure_reasons : list string)
    (j : nat) (c : Commitment) :
  first (active_commitment_of u) (commitments (core s)) = Some (j, c) ->
  let s' := snd (process_premortem s llm u failure_reasons) in
  map (fun r => (risk r, mitigation r, priority r))
      (filter (risk_of (commitment_id c)) (premortem_risks s'))
  = submitted llm failure_reasons /\
  filter (not_risk_of (commitment_id c)) (premortem_risks s')
  = filter (not_risk_of (commitment_id c)) (premortem_risks s) /\
  core s' = core s /\ concept_mastery s' = concept_mastery s.
Proof. exact (process_premortem_store s llm u failure_reasons j c). Qed.

Lemma process_premortem_replaces_risks_witness :
  map (fun r => (risk r, mitigation r, priority r))
      (filter (risk_of 1)
         (premortem_risks
            (snd (process_premortem MoreSamples.store None 7 ["No time"; "Too hard"]))))
  = [ ("No time", "Create accountability checkpoint", 1);
      ("Too hard", "Create accountability checkpoint", 2) ]%string.
Proof.
  destruct (process_premortem_replaces_risks MoreSamples.store None 7
              ["No time"; "Too hard"]%string 0%nat Samples.learner eq_refl)
    as (Hm & _).
  exact Hm.
Defined.

Lemma first_word_blank (g : string) :
  forallb is_space (String.list_ascii_of_string g) = true -> first_word g = None.
Proof.
  induction g as [| ch g IH]; [reflexivity |].
  simpl. intros H. apply andb_true_iff in H as [Hc Hg].
  rewrite Hc. apply IH. exact Hg.
Qed.

(** A premortem for a commitment whose goal is blank but not empty does
    not return: taking the first word of the goal raises [IndexError],
    after the risks have been stored. *)
Theorem process_premortem_blank_goal
    (s : Store) (llm : option PremortemResponse) (u : Z) (failure_reasons : list string)
    (j : nat) (c : Commitment) :
  first (active_commitment_of u) (commitments (core s)) = Some (j, c) ->
  goal c <> ""%string ->
  forallb is_space (String.list_ascii_of_string (goal c)) = true ->
  fst (process_premortem s llm u failure_reasons) = Raised "IndexError" /\
  map (fun r => (risk r, mitigation r, priority r))
      (filter (risk_of (commitment_id c))
              (premortem_risks (snd (process_premortem s llm u failure_reasons))))
  = submitted llm failure_reasons.
Proof.
  intros Hc Hne Hblank.
  split; [| apply (process_premortem_store s llm u failure_reasons j c Hc)].
  unfold process_premortem. rewrite Hc.
  destruct (match llm with Some _ => _ | None => _ end) as [risks summary].
  destruct (String.eqb_spec (goal c) ""); [contradiction |].
  rewrite (first_word_blank _ Hblank). reflexivity.
Qed.

Lemma process_premortem_blank_goal_witness :
  fst (process_premortem MoreSamples.blank_store None 7 ["No time"]) = Raised "IndexError".
Proof.
  destruct (process_premortem_blank_goal MoreSamples.blank_store None 7 ["No time"]%string
              0%nat MoreSamples.blank_goal eq_refl) as [H _];
    [intros H; discriminate H | reflexivity | exact H].
Defined.

Lemma imap_length_priority (reasons : list string) (k : nat) :
  map rd_priority
      (imap (fun i r => {| rd_risk := Some r;
                           rd_mitigation := Some "Create accountability checkpoint"%string;
                           rd_priority := Some (Z.of_nat (k + i) + 1) |}) reasons)
  = map (fun i => Some (Z.of_nat i + 1)) (seq k (length reasons)).
Proof.
  revert k. induction reasons as [| r reasons IH]; intros k; [reflexivity |].
  cbn [imap map length seq rd_priority].
  f_equal; [rewrite Nat.add_0_r; reflexivity |].
  rewrite <- (IH (S k)). f_equal. apply imap_ext. intros i x _. simpl.
  replace (k + S i)%nat with (S (k + i)) by lia. reflexivity.
Qed.

Lemma fallback_fields (f : nat -> Z) (rs : list string) :
  let made :=
    imap (fun i r => {| rd_risk := Some r;
                        rd_mitigation := Some "Create accountability checkpoint"%string;
                        rd_priority := Some (f i) |}) rs in
  map rd_risk made = map Some rs /\
  Forall (fun d => rd_mitigation d = Some "Create accountability checkpoint"%string) made.
Proof.
  revert f. induction rs as [| r rs IH]; intros f; [split; [reflexivity | constructor] |].
  destruct (IH (f ∘ S)) as [IH1 IH2].
  cbn [imap map rd_risk]. split.
  - f_equal. exact IH1.
  - constructor; [reflexivity | exact IH2].
Qed.

(** The risks used when the content generator fails: one per stated
    reason up to five, in order, numbered 1, 2, ..., every one with the
    mitigation "Create accountability checkpoint". *)
Theorem fallback_risks_shape (failure_reasons : list string) :
  let n := Nat.min 5 (length failure_reasons) in
  length (fallback_risks failure_reasons) = n /\
  map rd_risk (fallback_risks failure_reasons) = map Some (take 5 failure_reasons) /\
  map rd_priority (fallback_risks failure_reasons)
  = map (fun i => Some (Z.of_nat i + 1)) (seq 0 n) /\
  Forall (fun d => rd_mitigation d = Some "Create accountability checkpoint"%string)
         (fallback_risks failure_reasons).
Proof.
  intros n. subst n. unfold fallback_risks.
  set (rs := take 5 failure_reasons).
  assert (Hlen : length rs = Nat.min 5 (length failure_reasons))
    by (apply length_take).
  rewrite <- Hlen. clearbody rs. clear Hlen.
  split; [apply length_imap |]. split; [| split].
  - apply (fallback_fields (fun i => Z.of_nat i + 1)).
  - rewrite <- (imap_length_priority rs 0). reflexivity.
  - apply (fallback_fields (fun i => Z.of_nat i + 1)).
Qed.

End Premortem.
